(** * web-to-pdf: a shallow embedding of [app.js]

    The service is a thin adapter around a headless browser: two pure
    helpers ([isValidUrl], [sanitizeFilename]), the render adapter
    [generatePDF], the two [/generate-pdf] route handlers, and the
    application that holds them: body parsers, CORS middleware,
    information routes, error handler and 404 handler.

    - JavaScript strings are sequences of UTF-16 code units: [list N].
    - JavaScript objects used as mappings are [gmap]s from property name
      to value.
    - The browser engine, the URL parser and the clock are external: they
      are parameters of the model (a record of outcomes, a predicate, a
      string).
    - Asynchronous code that may raise is written in a state-and-exception
      monad; the state holds the log of engine calls, the local variable
      [browser] of [generatePDF] and the response under construction. *)

From Stdlib Require Import NArith QArith Ascii String.
From stdpp Require Import gmap list fin_maps.

Local Open Scope N_scope.

(** ** JavaScript strings *)

Abbreviation jsstring := (list N).

(** Code units of an ASCII literal. *)
Fixpoint js (s : string) : jsstring :=
  match s with
  | EmptyString => []
  | String a t => N_of_ascii a :: js t
  end.
Arguments js : simpl never.

Definition is_digit (c : N) : bool := (48 <=? c) && (c <=? 57).
Definition is_lower (c : N) : bool := (97 <=? c) && (c <=? 122).
Definition is_upper (c : N) : bool := (65 <=? c) && (c <=? 90).

(** The class [a-z0-9] under the [i] flag (no [u] flag): canonicalisation
    never maps a code unit above 127 to an ASCII one, so the class holds
    exactly the ASCII letters of both cases and the digits. *)
Definition is_alnum (c : N) : bool := is_lower c || is_upper c || is_digit c.

Definition underscore : N := 95.

Fixpoint starts_with (p s : jsstring) : bool :=
  match p, s with
  | [], _ => true
  | _ :: _, [] => false
  | a :: p', b :: s' => (a =? b) && starts_with p' s'
  end.

(** Matching a literal at the head of the input; the rest is returned. *)
Definition match_lit (p s : jsstring) : option jsstring :=
  if starts_with p s then Some (drop (length p) s) else None.

(** [/https?:\/\//] tried at the head of [s]: the length of the match.
    The optional [s] is greedy; when the continuation fails with it, the
    matcher backtracks and tries without. *)
Definition scheme_re (s : jsstring) : option nat :=
  match match_lit (js "http") s with
  | None => None
  | Some r1 =>
      let with_s :=
        match match_lit (js "s") r1 with
        | Some r2 => match_lit (js "://") r2
        | None => None
        end in
      match with_s with
      | Some _ => Some 8%nat
      | None =>
          match match_lit (js "://") r1 with
          | Some _ => Some 7%nat
          | None => None
          end
      end
  end.

(** [String.prototype.replace] with a regular expression that has no [g]
    flag: the leftmost match is replaced, nothing else. *)
Fixpoint replace_first (re : jsstring -> option nat) (by_ : jsstring)
    (s : jsstring) : jsstring :=
  match re s with
  | Some n => by_ ++ drop n s
  | None =>
      match s with
      | [] => []
      | c :: t => c :: replace_first re by_ t
      end
  end.

(** [String.prototype.replace] with a one-character class and the [g]
    flag: every code unit in the class is replaced. *)
Definition replace_class (cls : N -> bool) (by_ : N) (s : jsstring) : jsstring :=
  map (fun c => if cls c then by_ else c) s.

(** [toLowerCase] on the ASCII range.  Code units above 127 are left as
    they are: [sanitizeFilename] lowercases the output of the class
    replacement, which is ASCII (lemma [replace_class_ascii]). *)
Definition lower_unit (c : N) : N := if is_upper c then c + 32 else c.
Definition toLowerCase (s : jsstring) : jsstring := map lower_unit s.

(** [substring(0, n)]. *)
Definition substring0 (n : nat) (s : jsstring) : jsstring := take n s.

(** [sanitizeFilename], app.js lines 33-39. *)
Definition sanitizeFilename (url : jsstring) : jsstring :=
  substring0 50
    (toLowerCase
       (replace_class (fun c => negb (is_alnum c)) underscore
          (replace_first scheme_re [] url))).

(** *** The four steps as the specification words them *)

Definition strip_leading_scheme (s : jsstring) : jsstring :=
  if starts_with (js "https://") s then drop 8 s
  else if starts_with (js "http://") s then drop 7 s
  else s.

Definition outside_alnum_to_underscore (s : jsstring) : jsstring :=
  map (fun c => if is_alnum c then c else underscore) s.

Definition truncate50 (s : jsstring) : jsstring := take 50 s.

Definition sanitizeFilename_spec (s : jsstring) : jsstring :=
  truncate50 (toLowerCase (outside_alnum_to_underscore (strip_leading_scheme s))).

(** *** The first step as the code performs it: the first occurrence *)

(** Length of the scheme text that occurs at index [i] of [s], if any. *)
Definition scheme_at (s : jsstring) (i : nat) : option nat :=
  if starts_with (js "https://") (drop i s) then Some 8%nat
  else if starts_with (js "http://") (drop i s) then Some 7%nat
  else None.

Fixpoint first_scheme_from (s : jsstring) (i : nat) (fuel : nat) : option (nat * nat) :=
  match scheme_at s i with
  | Some n => Some (i, n)
  | None =>
      match fuel with
      | O => None
      | S fuel' => first_scheme_from s (S i) fuel'
      end
  end.

(** Index and length of the leftmost occurrence of a scheme in [s]. *)
Definition first_scheme (s : jsstring) : option (nat * nat) :=
  first_scheme_from s 0 (length s).

Definition remove_first_scheme (s : jsstring) : jsstring :=
  match first_scheme s with
  | Some (i, n) => take i s ++ drop (i + n) s
  | None => s
  end.

Definition sanitizeFilename_first (s : jsstring) : jsstring :=
  truncate50 (toLowerCase (outside_alnum_to_underscore (remove_first_scheme s))).

(** A code unit of the output alphabet [a-z0-9_]. *)
Definition out_unit (c : N) : bool := is_lower c || is_digit c || (c =? underscore).

(** [^[a-z0-9_]*$] as a test on the whole string. *)
Definition matches_out_re (s : jsstring) : bool := forallb out_unit s.


(** A literal written with apostrophes where the source text has double
    quotes (none of the literals of app.js holds an apostrophe). *)
Definition dquote : N := 34.
Definition js_dq (s : string) : jsstring :=
  map (fun c => if c =? 39 then dquote else c) (js s).

(** ** JavaScript values and objects *)

#[local] Set Warnings "-register-all".

(** The values a JSON body can carry.  Numbers are the rationals that the
    finite doubles are; the service never computes with them. *)
Inductive value :=
  | VNull
  | VBool (b : bool)
  | VNum (q : Q)
  | VStr (s : jsstring)
  | VArr (l : list value)
  | VObj (o : gmap jsstring value).

Abbreviation jsobject := (gmap jsstring value).

(** An object literal [{k1: v1, k2: v2, ...}]: the properties are defined
    from left to right. *)
Definition object_literal (props : list (jsstring * value)) : jsobject :=
  foldl (fun o kv => <[kv.1 := kv.2]> o) ∅ props.

(** A spread element [...src] in an object literal: every own property of
    [src] is defined on the object under construction. *)
Definition spread (src tgt : jsobject) : jsobject :=
  map_fold (fun k v acc => <[k := v]> acc) tgt src.

(** ** Errors, outcomes and the external world *)

Record error := Error { message : jsstring }.

Inductive outcome (A : Type) :=
  | Returned (a : A)
  | Thrown (e : error).
Arguments Returned {A} a.
Arguments Thrown {A} e.

Abbreviation session := nat.
Abbreviation buffer := (list Byte.byte).

(** What the code cannot decide by itself: the URL parser of the platform
    ([new URL(s)] raises exactly when the parser fails), the clock, and the
    result of every call into the browser engine.  The outcome of
    [browser.close()] may differ from one attempt to the next; it is
    indexed by the number of attempts made before. *)
Record world := World {
  URL_parses : jsstring -> bool;
  now : jsstring;
  launch : jsobject -> outcome session;
  newPage : session -> outcome unit;
  setViewport : outcome unit;
  setUserAgent : outcome unit;
  goto : jsstring -> outcome unit;
  waitForTimeout : outcome unit;
  pdf : jsstring -> jsobject -> outcome buffer;
  close : nat -> outcome unit
}.

Inductive event :=
  | Launch (config : jsobject)
  | NewPage (b : session)
  | SetViewport (width height : N)
  | SetUserAgent (ua : jsstring)
  | Goto (url waitUntil : jsstring) (timeout : N)
  | WaitForTimeout (ms : N)
  | Pdf (options : jsobject)
  | Close (b : session)
  | ConsoleLog (line : jsstring)
  | ConsoleError (label text : jsstring).

(** ** The HTTP response under construction *)

Inductive hvalue :=
  | HStr (s : jsstring)
  | HNum (n : nat).

Inductive payload :=
  | Json (v : value)
  | Bytes (b : buffer).

(** [headers] holds the header fields that the code of the application
    sets, and the [Content-Type] that [res.json] settles.  The fields that
    Express and Node add to every response by themselves ([X-Powered-By],
    the [Content-Length] and [ETag] that [res.send] computes from the
    serialised body, [Date], [Connection]) are not represented; nothing
    below is stated about them. *)
Record response := Response {
  status : nat;
  headers : gmap jsstring hvalue;
  body : option payload
}.

Definition fresh_response : response :=
  {| status := 200; headers := ∅; body := None |}.

(** ** State and the monad of the asynchronous code *)

(** [log]: the calls made so far, oldest first; [browser]: the local
    variable of [generatePDF] ([None] is [undefined]); [res]: the response
    object of the request being served. *)
Record state := State {
  log : list event;
  browser : option session;
  res : response
}.

Definition initial_state : state :=
  {| log := []; browser := None; res := fresh_response |}.

Definition M (A : Type) : Type := state -> outcome A * state.

Definition ret {A} (a : A) : M A := fun s => (Returned a, s).

Definition bind {A B} (c : M A) (k : A -> M B) : M B :=
  fun s =>
    match c s with
    | (Returned a, s') => k a s'
    | (Thrown e, s') => (Thrown e, s')
    end.

Definition throw {A} (e : error) : M A := fun s => (Thrown e, s).

(** [try { c } catch (error) { h error }]: the effects of [c] up to the
    point where it raised are kept. *)
Definition try_catch {A} (c : M A) (h : error -> M A) : M A :=
  fun s =>
    match c s with
    | (Returned a, s') => (Returned a, s')
    | (Thrown e, s') => h e s'
    end.

Notation "'let*' x ':=' c 'in' k" := (bind c (fun x => k))
  (at level 10, x name, c at level 100, k at level 200).
Notation "c '>>' k" := (bind c (fun _ => k))
  (at level 100, k at level 200, right associativity).

(** A call into the outside: it is logged, then it returns or raises. *)
Definition call {A} (e : event) (o : outcome A) : M A :=
  fun s => (o, {| log := log s ++ [e]; browser := browser s; res := res s |}).

Definition set_browser (b : option session) : M unit :=
  fun s => (Returned tt, {| log := log s; browser := b; res := res s |}).

Definition get_browser : M (option session) :=
  fun s => (Returned (browser s), s).

Definition is_close (e : event) : bool :=
  match e with Close _ => true | _ => false end.

Definition close_attempts (l : list event) : nat := length (List.filter is_close l).

Definition browser_close (w : world) (b : session) : M unit :=
  fun s => call (Close b) (close w (close_attempts (log s))) s.

Definition on_response (f : response -> response) : M unit :=
  fun s => (Returned tt, {| log := log s; browser := browser s; res := f (res s) |}).

(** [res.status(n)]. *)
Definition res_status (n : nat) : M unit :=
  on_response (fun r => {| status := n; headers := headers r; body := body r |}).

(** The code units that Node accepts in the value of a header: the tab,
    0x20 to 0x7E and 0x80 to 0xFF. *)
Definition header_unit_ok (c : N) : bool :=
  (c =? 9) || ((32 <=? c) && (c <=? 126)) || ((128 <=? c) && (c <=? 255)).

Definition header_value_ok (v : hvalue) : bool :=
  match v with
  | HStr s => forallb header_unit_ok s
  | HNum _ => true
  end.

(** The error that [setHeader] raises for any other code unit. *)
Definition invalid_char_error (k : jsstring) : error :=
  Error (js "Invalid character in header content [" ++ [dquote] ++ k ++ [dquote] ++ js "]").

(** [res.setHeader(k, v)]: the value is checked, then stored. *)
Definition res_setHeader (k : jsstring) (v : hvalue) : M unit :=
  if header_value_ok v then
    on_response (fun r =>
      {| status := status r; headers := <[k := v]> (headers r); body := body r |})
  else throw (invalid_char_error k).

(** The media type of a [Content-Type] value: what is before the first
    semicolon. *)
Fixpoint media_type (t : jsstring) : jsstring :=
  match t with
  | [] => []
  | c :: t' => if c =? 59 then [] else c :: media_type t'
  end.

(** What [res.send] makes of the content type when it sends a string:
    the charset parameter is set to utf-8.  (No value in this application
    has another parameter.) *)
Definition setCharset (t : jsstring) : jsstring :=
  media_type t ++ js "; charset=utf-8".

(** [res.json(v)]: the content type is [application/json] unless one is
    there already; either way its charset becomes utf-8, and the
    serialised value is sent. *)
Definition res_json (v : value) : M unit :=
  on_response (fun r =>
    {| status := status r;
       headers := match headers r !! js "Content-Type" with
                  | Some (HStr t) =>
                      <[js "Content-Type" := HStr (setCharset t)]> (headers r)
                  | Some (HNum _) => headers r
                  | None => <[js "Content-Type" := HStr (js "application/json; charset=utf-8")]> (headers r)
                  end;
       body := Some (Json v) |}).

(** [res.send(buffer)]. *)
Definition res_send (b : buffer) : M unit :=
  on_response (fun r => {| status := status r; headers := headers r; body := Some (Bytes b) |}).

(** ** [isValidUrl], app.js lines 23-30 *)

(** [new URL(s)]; the object it builds is not used. *)
Definition URL_new (w : world) (s : jsstring) : M unit :=
  if URL_parses w s then ret tt else throw (Error (js "Invalid URL")).

Definition isValidUrl (w : world) (s : jsstring) : M bool :=
  try_catch
    (URL_new w s >>
     ret true)
    (fun _ => ret false).

(** ** [generatePDF], app.js lines 42-102 *)

Definition launchOptions : jsobject :=
  object_literal
    [ (js "headless", VStr (js "new"));
      (js "args", VArr (map (fun a => VStr (js a))
         [ "--no-sandbox"; "--disable-setuid-sandbox"; "--disable-dev-shm-usage";
           "--disable-accelerated-2d-canvas"; "--no-first-run"; "--no-zygote";
           "--disable-gpu" ]%string)) ].

Definition userAgent : jsstring :=
  js "Mozilla/5.0 (Windows NT 10.0; Win64; x64) AppleWebKit/537.36".

Definition defaultMargin : jsobject :=
  object_literal
    [ (js "top", VStr (js "20px")); (js "right", VStr (js "20px"));
      (js "bottom", VStr (js "20px")); (js "left", VStr (js "20px")) ].

Definition headerTemplate : jsstring :=
  js_dq "<div style='font-size: 10px; margin: auto;'></div>".

Definition footerTemplate : jsstring :=
  js_dq "<div style='font-size: 10px; margin: auto; color: #666;'><span class='pageNumber'></span> / <span class='totalPages'></span></div>".

(** The properties written out in the literal, before the spread. *)
Definition pdfDefaults : jsobject :=
  object_literal
    [ (js "format", VStr (js "A4"));
      (js "printBackground", VBool true);
      (js "margin", VObj defaultMargin);
      (js "displayHeaderFooter", VBool true);
      (js "headerTemplate", VStr headerTemplate);
      (js "footerTemplate", VStr footerTemplate) ].

(** [{ format: 'A4', ..., ...options }]. *)
Definition pdfOptions (options : jsobject) : jsobject :=
  spread options pdfDefaults.

(** [options = {}]: an argument that is not passed is the empty object. *)
Definition generatePDF (w : world) (url : jsstring) (options : option jsobject)
  : M buffer :=
  let options := default ∅ options in
  set_browser None >>
  try_catch
    (let* b := call (Launch launchOptions) (launch w launchOptions) in
     set_browser (Some b) >>
     call (NewPage b) (newPage w b) >>
     call (SetViewport 1920 1080) (setViewport w) >>
     call (SetUserAgent userAgent) (setUserAgent w) >>
     call (Goto url (js "networkidle2") 30000) (goto w url) >>
     call (WaitForTimeout 2000) (waitForTimeout w) >>
     let* pdf := call (Pdf (pdfOptions options)) (pdf w url (pdfOptions options)) in
     browser_close w b >>
     ret pdf)
    (fun error =>
       let* b := get_browser in
       match b with
       | Some b =>
           browser_close w b >>
           throw error
       | None => throw error
       end).

(** ** The route handlers, app.js lines 124-199 *)

(** A string that may be [undefined] is truthy when it is there and is
    not empty. *)
Definition truthy (o : option jsstring) : bool :=
  match o with
  | Some (_ :: _) => true
  | _ => false
  end.

(** [a || b] on strings. *)
Definition or_else (a : option jsstring) (b : jsstring) : jsstring :=
  match a with
  | Some (c :: t) => c :: t
  | _ => b
  end.

Definition console_log (line : jsstring) : M unit :=
  call (ConsoleLog line) (Returned tt).

Definition console_error (label text : jsstring) : M unit :=
  call (ConsoleError label text) (Returned tt).

Definition contentDisposition (pdfFilename : jsstring) : jsstring :=
  js "attachment; filename=" ++ [dquote] ++ pdfFilename ++ [dquote].

(** The three header assignments and [res.send(pdf)], the same on both
    routes. *)
Definition send_pdf (pdfFilename : jsstring) (pdf : buffer) : M unit :=
  res_setHeader (js "Content-Type") (HStr (js "application/pdf")) >>
  res_setHeader (js "Content-Disposition") (HStr (contentDisposition pdfFilename)) >>
  res_setHeader (js "Content-Length") (HNum (length pdf)) >>
  res_send pdf.

(** The [catch] block, the same on both routes. *)
Definition report_failure (w : world) (error : error) : M unit :=
  console_error (js "Error generating PDF:") (message error) >>
  res_status 500 >>
  res_json (VObj (object_literal
    [ (js "error", VStr (js "Failed to generate PDF"));
      (js "message", VStr (message error));
      (js "timestamp", VStr (now w)) ])).

(** The body of a POST request, at the types the API documents: [url]
    and [filename] strings, [options] an object, each of them optional. *)
Record post_body := PostBody {
  body_url : option jsstring;
  body_filename : option jsstring;
  body_options : option jsobject
}.

Definition post_generate_pdf (w : world) (req : post_body) : M unit :=
  try_catch
    (let url := body_url req in
     let filename := body_filename req in
     let options := default ∅ (body_options req) in
     if negb (truthy url) then
       res_status 400 >>
       res_json (VObj (object_literal
         [ (js "error", VStr (js "URL is required"));
           (js "example", VObj (object_literal
              [ (js "url", VStr (js "https://example.com"));
                (js "filename", VStr (js "optional-name.pdf")) ])) ]))
     else
       let url := default [] url in
       let* valid := isValidUrl w url in
       if negb valid then
         res_status 400 >>
         res_json (VObj (object_literal [ (js "error", VStr (js "Invalid URL format")) ]))
       else
         console_log (js "Generating PDF for: " ++ url) >>
         let* pdf := generatePDF w url (Some options) in
         let pdfFilename := or_else filename (sanitizeFilename url ++ js ".pdf") in
         send_pdf pdfFilename pdf)
    (report_failure w).

(** The query of a GET request: parameter names to their string values. *)
Definition get_generate_pdf (w : world) (query : gmap jsstring jsstring) : M unit :=
  try_catch
    (let url := query !! js "url" in
     let filename := query !! js "filename" in
     if negb (truthy url) then
       res_status 400 >>
       res_json (VObj (object_literal
         [ (js "error", VStr (js "URL parameter is required"));
           (js "example",
            VStr (js "/generate-pdf?url=https://example.com&filename=optional-name.pdf")) ]))
     else
       let url := default [] url in
       let* valid := isValidUrl w url in
       if negb valid then
         res_status 400 >>
         res_json (VObj (object_literal [ (js "error", VStr (js "Invalid URL format")) ]))
       else
         console_log (js "Generating PDF for: " ++ url) >>
         let* pdf := generatePDF w url None in
         let pdfFilename := or_else filename (sanitizeFilename url ++ js ".pdf") in
         send_pdf pdfFilename pdf)
    (report_failure w).

(** ** Requests to [/generate-pdf] *)

(** Express calls the handler registered for the method of the request. *)
Inductive request :=
  | POST (body : post_body)
  | GET (query : gmap jsstring jsstring).

Definition serve (w : world) (r : request) : M unit :=
  match r with
  | POST b => post_generate_pdf w b
  | GET q => get_generate_pdf w q
  end.

Definition request_url (r : request) : option jsstring :=
  match r with
  | POST b => body_url b
  | GET q => q !! js "url"
  end.

Definition request_filename (r : request) : option jsstring :=
  match r with
  | POST b => body_filename b
  | GET q => q !! js "filename"
  end.

(** The options that the route hands to the adapter. *)
Definition request_options (r : request) : jsobject :=
  match r with
  | POST b => default ∅ (body_options b)
  | GET _ => ∅
  end.

(** The state in which a request is taken up: the calls of earlier
    requests are in the log, the response is untouched. *)
Definition arrival (history : list event) : state :=
  {| log := history; browser := None; res := fresh_response |}.

(** ** The calls of one render, as a list *)

(** One call that returns nothing: when it raises, the calls after it are
    not made. *)
Definition step {A} (e : event) (o : outcome unit)
    (rest : list event * outcome A) : list event * outcome A :=
  match o with
  | Returned _ => (e :: rest.1, rest.2)
  | Thrown err => ([e], Thrown err)
  end.

(** The calls made on a launched session [b] before it is closed, up to
    the first that raises, and what the last of them gave: the buffer of
    the export, or the error of the call that raised. *)
Definition render (w : world) (b : session) (url : jsstring) (opts : jsobject)
  : list event * outcome buffer :=
  step (NewPage b) (newPage w b)
    (step (SetViewport 1920 1080) (setViewport w)
       (step (SetUserAgent userAgent) (setUserAgent w)
          (step (Goto url (js "networkidle2") 30000) (goto w url)
             (step (WaitForTimeout 2000) (waitForTimeout w)
                ([Pdf opts], pdf w url opts))))).

(** The outcome of launch, page set-up, navigation, settle wait and
    export taken together: the first error among them, or the buffer. *)
Definition render_outcome (w : world) (url : jsstring) (opts : jsobject)
  : outcome buffer :=
  match launch w launchOptions with
  | Thrown e => Thrown e
  | Returned b => (render w b url opts).2
  end.

Definition returned {A} (o : outcome A) : bool :=
  match o with Returned _ => true | Thrown _ => false end.

(** Whether a render gets as far as the export: every call before it
    returned. *)
Definition reaches_export (w : world) (url : jsstring) : bool :=
  match launch w launchOptions with
  | Returned b =>
      returned (newPage w b) && returned (setViewport w) && returned (setUserAgent w)
      && returned (goto w url) && returned (waitForTimeout w)
  | Thrown _ => false
  end.

(** The events that [c] adds to the log of [s]. *)
Definition new_events {A} (c : M A) (s : state) : list event :=
  drop (length (log s)) (log (c s).2).

Definition pdf_args (l : list event) : list jsobject :=
  omap (fun e => match e with Pdf o => Some o | _ => None end) l.

Definition is_engine_call (e : event) : bool :=
  match e with
  | ConsoleLog _ | ConsoleError _ _ => false
  | _ => true
  end.

(** Whether [needle] occurs in [s]. *)
Fixpoint occurs_in (needle s : jsstring) : bool :=
  starts_with needle s ||
  match s with
  | [] => false
  | _ :: t => occurs_in needle t
  end.

(** The text of an HTML template outside its tags. *)
Fixpoint text_outside_tags (in_tag : bool) (s : jsstring) : jsstring :=
  match s with
  | [] => []
  | c :: t =>
      if c =? 60 then text_outside_tags true t
      else if c =? 62 then text_outside_tags false t
      else if in_tag then text_outside_tags in_tag t
      else c :: text_outside_tags in_tag t
  end.



(** What both handlers do once the address has passed validation, with
    the [try]/[catch] of the handler resolved on the outcome of the adapter. *)
Definition deliver (w : world) (url : jsstring) (filename : option jsstring)
    (options : option jsobject) : M unit :=
  fun s =>
    match generatePDF w url options
            (call (ConsoleLog (js "Generating PDF for: " ++ url)) (Returned tt) s).2 with
    | (Returned pdf, s') =>
        try_catch
          (send_pdf (or_else filename (sanitizeFilename url ++ js ".pdf")) pdf)
          (report_failure w) s'
    | (Thrown e, s') => report_failure w e s'
    end.

(** Whether [setHeader] accepts the [Content-Disposition] made of a name. *)
Definition name_ok (name : jsstring) : bool :=
  header_value_ok (HStr (contentDisposition name)).

(** The response [r] at the point where [setHeader] has raised on the
    [Content-Disposition]: the content type is already set. *)
Definition with_pdf_type (r : response) : response :=
  {| status := status r;
     headers := <[js "Content-Type" := HStr (js "application/pdf")]> (headers r);
     body := body r |}.

(** The response [r] after the three header assignments and
    [res.send(pdf)]. *)
Definition pdf_response (name : jsstring) (pdf : buffer) (r : response) : response :=
  {| status := status r;
     headers :=
       <[js "Content-Length" := HNum (length pdf)]>
         (<[js "Content-Disposition" := HStr (contentDisposition name)]>
            (<[js "Content-Type" := HStr (js "application/pdf")]> (headers r)));
     body := Some (Bytes pdf) |}.

(** The response [r] after [res.status(code).json(v)]. *)
Definition json_response (code : nat) (v : value) (r : response) : response :=
  {| status := code;
     headers := match headers r !! js "Content-Type" with
                | Some (HStr t) => <[js "Content-Type" := HStr (setCharset t)]> (headers r)
                | Some (HNum _) => headers r
                | None =>
                    <[js "Content-Type" := HStr (js "application/json; charset=utf-8")]>
                      (headers r)
                end;
     body := Some (Json v) |}.

(** The body that the [catch] block of the two handlers sends. *)
Definition catch_body (w : world) (e : error) : value :=
  VObj (object_literal
    [ (js "error", VStr (js "Failed to generate PDF"));
      (js "message", VStr (message e));
      (js "timestamp", VStr (now w)) ]).

(** ** Sample worlds and requests *)

Definition sample_pdf : buffer := [Byte.x25; Byte.x50; Byte.x44; Byte.x46].

(** A parser that agrees with the platform's on the sample inputs below:
    an [https://] address with a host parses, a word without a scheme
    does not. *)
Definition sample_parses (s : jsstring) : bool :=
  starts_with (js "https://") s && negb (length s =? 8)%nat.

(** Every call of the engine returns. *)
Definition ok_world : world :=
  {| URL_parses := sample_parses;
     now := js "2024-01-01T00:00:00.000Z";
     launch := fun _ => Returned 1%nat;
     newPage := fun _ => Returned tt;
     setViewport := Returned tt;
     setUserAgent := Returned tt;
     goto := fun _ => Returned tt;
     waitForTimeout := Returned tt;
     pdf := fun _ _ => Returned sample_pdf;
     close := fun _ => Returned tt |}.

(** Every call returns but [browser.close()], which raises each time. *)
Definition close_fails_world : world :=
  {| URL_parses := sample_parses;
     now := js "2024-01-01T00:00:00.000Z";
     launch := fun _ => Returned 1%nat;
     newPage := fun _ => Returned tt;
     setViewport := Returned tt;
     setUserAgent := Returned tt;
     goto := fun _ => Returned tt;
     waitForTimeout := Returned tt;
     pdf := fun _ _ => Returned sample_pdf;
     close := fun _ => Thrown (Error (js "Protocol error: Connection closed.")) |}.

(** Navigation runs into its timeout. *)
Definition timeout_world : world :=
  {| URL_parses := sample_parses;
     now := js "2024-01-01T00:00:00.000Z";
     launch := fun _ => Returned 1%nat;
     newPage := fun _ => Returned tt;
     setViewport := Returned tt;
     setUserAgent := Returned tt;
     goto := fun _ => Thrown (Error (js "Navigation timeout of 30000 ms exceeded"));
     waitForTimeout := Returned tt;
     pdf := fun _ _ => Returned sample_pdf;
     close := fun _ => Returned tt |}.

(** Two queries for the same address; the second also carries parameters
    named like render options. *)
Definition plain_query : gmap jsstring jsstring :=
  <[js "url" := js "https://example.com"]> ∅.

Definition loaded_query : gmap jsstring jsstring :=
  <[js "url" := js "https://example.com"]>
    (<[js "format" := js "A3"]>
       (<[js "landscape" := js "true"]>
          (<[js "printBackground" := js "false"]>
             (<[js "options[format]" := js "A3"]> ∅)))).

(** The options of the README's example: the caller's [margin] names two
    sides only. *)
Definition readme_options : jsobject :=
  object_literal
    [ (js "format", VStr (js "A3"));
      (js "landscape", VBool true);
      (js "margin", VObj (object_literal
         [ (js "top", VStr (js "50px")); (js "bottom", VStr (js "50px")) ])) ].

(** ** The application: middleware and routes, app.js lines 10-20 and 104-213 *)

(** The methods that the routing tells apart.  [OtherMethod] stands for
    PUT, DELETE, PATCH and OPTIONS. *)
Inductive method :=
  | Get
  | Head
  | Post
  | OtherMethod.

(** The registered path that Express matches the request path against
    (its matching is Express's own, not the application's); [NoRoute] is
    a path that matches none of them. *)
Inductive path :=
  | Root
  | Health
  | GeneratePdf
  | NoRoute.

(** A request as the application's own layers see it.  [req_parse_error]
    is the error that [express.json()] or [express.urlencoded()] hands to
    [next] when the body does not parse; [req_body] is what they leave
    in [req.body]. *)
Record http_request := HttpRequest {
  req_method : method;
  req_path : path;
  req_query : gmap jsstring jsstring;
  req_body : post_body;
  req_parse_error : option error
}.

(** How a middleware function leaves: [next()], [next(err)], or with the
    response sent. *)
Inductive flow :=
  | Next
  | NextError (e : error)
  | Finished.

Inductive layer :=
  | Use (f : http_request -> M flow)
  | Route (m : method) (p : path) (h : http_request -> M unit)
  | UseError (h : error -> http_request -> M unit).

(** [app.use(express.json())] and [app.use(express.urlencoded(...))],
    lines 11-12. *)
Definition body_parsers (req : http_request) : M flow :=
  match req_parse_error req with
  | Some e => ret (NextError e)
  | None => ret Next
  end.

(** The CORS middleware, lines 15-20. *)
Definition cors (req : http_request) : M flow :=
  res_setHeader (js "Access-Control-Allow-Origin") (HStr (js "*")) >>
  res_setHeader (js "Access-Control-Allow-Headers")
    (HStr (js "Origin, X-Requested-With, Content-Type, Accept")) >>
  res_setHeader (js "Access-Control-Allow-Methods")
    (HStr (js "GET, POST, PUT, DELETE, OPTIONS")) >>
  ret Next.

(** [app.get('/')], lines 107-116. *)
Definition root_info (req : http_request) : M unit :=
  res_json (VObj (object_literal
    [ (js "message", VStr (js "URL to PDF API is running"));
      (js "endpoints", VObj (object_literal
         [ (js "GET /health", VStr (js "Health check"));
           (js "POST /generate-pdf", VStr (js "Generate PDF from URL"));
           (js "GET /generate-pdf", VStr (js "Generate PDF from URL (query params)")) ])) ])).

(** [app.get('/health')], lines 119-121. *)
Definition health (w : world) (req : http_request) : M unit :=
  res_json (VObj (object_literal
    [ (js "status", VStr (js "OK"));
      (js "timestamp", VStr (now w)) ])).

(** The error-handling middleware, lines 202-208; the error it prints is
    logged by its message. *)
Definition internal_error (w : world) (err : error) (req : http_request) : M unit :=
  console_error (js "Unhandled error:") (message err) >>
  res_status 500 >>
  res_json (VObj (object_literal
    [ (js "error", VStr (js "Internal server error"));
      (js "timestamp", VStr (now w)) ])).

(** The 404 handler, lines 211-213: it sends and does not call [next]. *)
Definition not_found (req : http_request) : M flow :=
  res_status 404 >>
  res_json (VObj (object_literal [ (js "error", VStr (js "Endpoint not found")) ])) >>
  ret Finished.

(** The layers in the order of their registration. *)
Definition app_stack (w : world) : list layer :=
  [ Use body_parsers;
    Use cors;
    Route Get Root root_info;
    Route Get Health (health w);
    Route Post GeneratePdf (fun req => post_generate_pdf w (req_body req));
    Route Get GeneratePdf (fun req => get_generate_pdf w (req_query req));
    UseError (internal_error w);
    Use not_found ].

Definition method_eqb (a b : method) : bool :=
  match a, b with
  | Get, Get | Head, Head | Post, Post | OtherMethod, OtherMethod => true
  | _, _ => false
  end.

(** Whether a route registered for method [m] takes a request of method
    [r]: its own method, and for a GET route also HEAD, since no route of
    the application registers HEAD. *)
Definition handles_method (m r : method) : bool :=
  method_eqb m r
  || match m, r with
     | Get, Head => true
     | _, _ => false
     end.

Definition path_eqb (a b : path) : bool :=
  match a, b with
  | Root, Root | Health, Health | GeneratePdf, GeneratePdf | NoRoute, NoRoute => true
  | _, _ => false
  end.

(** Express walks the stack: without an error the error handlers are
    skipped, a route runs when method and path match and then ends the
    walk, a middleware runs and says how to go on; with an error every
    layer but an error handler is skipped.  When the stack runs out
    Express's own final handler answers; it is not part of the
    application and leaves the response of the model as it is (lemma
    [handle_run]: the stack of this application never runs out). *)
Fixpoint handle (stack : list layer) (err : option error) (req : http_request)
  : M unit :=
  match stack with
  | [] => ret tt
  | l :: rest =>
      match err, l with
      | None, Use f =>
          let* go := f req in
          match go with
          | Next => handle rest None req
          | NextError e => handle rest (Some e) req
          | Finished => ret tt
          end
      | None, Route m p h =>
          if handles_method m (req_method req) && path_eqb p (req_path req)
          then h req
          else handle rest None req
      | None, UseError _ => handle rest None req
      | Some e, UseError h => h e req
      | Some e, _ => handle rest (Some e) req
      end
  end.

(** What of a payload handed to [res.send] goes out: nothing when the
    request is a HEAD. *)
Definition sent_body (req : http_request) (b : option payload) : option payload :=
  match req_method req with
  | Head => None
  | _ => b
  end.

(** [res.send], through which [res.json] goes too, ends the response to
    a HEAD request without the body.  The layers run for HEAD as they do
    for GET, so the model lets them run and drops the body after the
    walk. *)
Definition app (w : world) (req : http_request) : M unit :=
  handle (app_stack w) None req >>
  on_response (fun r =>
    {| status := status r; headers := headers r; body := sent_body req (body r) |}).

(** The headers that the CORS middleware sets. *)
Definition cors_headers : gmap jsstring hvalue :=
  <[js "Access-Control-Allow-Methods" := HStr (js "GET, POST, PUT, DELETE, OPTIONS")]>
    (<[js "Access-Control-Allow-Headers" :=
         HStr (js "Origin, X-Requested-With, Content-Type, Accept")]>
       (<[js "Access-Control-Allow-Origin" := HStr (js "*")]> ∅)).

(** The request of the routes' own model that an application request
    for [/generate-pdf] amounts to. *)
Definition as_request (req : http_request) : request :=
  match req_method req with
  | Post => POST (req_body req)
  | _ => GET (req_query req)
  end.

(** The calls of a render in the order of the source, for a session [b]. *)
Definition render_script (b : session) (url : jsstring) (opts : jsobject) : list event :=
  [ Launch launchOptions; NewPage b; SetViewport 1920 1080; SetUserAgent userAgent;
    Goto url (js "networkidle2") 30000; WaitForTimeout 2000; Pdf opts ].

Definition empty_body : post_body := PostBody None None None.

(** Navigation runs into its timeout and [browser.close()] raises too. *)
Definition timeout_close_fails_world : world :=
  {| URL_parses := sample_parses;
     now := js "2024-01-01T00:00:00.000Z";
     launch := fun _ => Returned 1%nat;
     newPage := fun _ => Returned tt;
     setViewport := Returned tt;
     setUserAgent := Returned tt;
     goto := fun _ => Thrown (Error (js "Navigation timeout of 30000 ms exceeded"));
     waitForTimeout := Returned tt;
     pdf := fun _ _ => Returned sample_pdf;
     close := fun _ => Thrown (Error (js "Protocol error: Connection closed.")) |}.

(** The length of the scheme text that [sanitizeFilename] takes out. *)
Definition removed_length (s : jsstring) : nat :=
  match first_scheme s with
  | Some (_, n) => n
  | None => 0%nat
  end.

(** ** Responses, by what was sent *)

(** The response [r] after the CORS middleware. *)
Definition after_cors (r : response) : response :=
  {| status := status r;
     headers :=
       <[js "Access-Control-Allow-Methods" := HStr (js "GET, POST, PUT, DELETE, OPTIONS")]>
         (<[js "Access-Control-Allow-Headers" :=
              HStr (js "Origin, X-Requested-With, Content-Type, Accept")]>
            (<[js "Access-Control-Allow-Origin" := HStr (js "*")]> (headers r)));
     body := body r |}.

(** Whether one of the four routes takes the request. *)
Definition routed (req : http_request) : bool :=
  match req_method req, req_path req with
  | Get, Root | Get, Health | Get, GeneratePdf
  | Head, Root | Head, Health | Head, GeneratePdf
  | Post, GeneratePdf => true
  | _, _ => false
  end.

Definition not_found_body : value :=
  VObj (object_literal [ (js "error", VStr (js "Endpoint not found")) ]).

Definition internal_error_body (w : world) : value :=
  VObj (object_literal
    [ (js "error", VStr (js "Internal server error"));
      (js "timestamp", VStr (now w)) ]).

Definition root_body : value :=
  VObj (object_literal
    [ (js "message", VStr (js "URL to PDF API is running"));
      (js "endpoints", VObj (object_literal
         [ (js "GET /health", VStr (js "Health check"));
           (js "POST /generate-pdf", VStr (js "Generate PDF from URL"));
           (js "GET /generate-pdf", VStr (js "Generate PDF from URL (query params)")) ])) ]).

Definition health_body (w : world) : value :=
  VObj (object_literal
    [ (js "status", VStr (js "OK"));
      (js "timestamp", VStr (now w)) ]).

Definition invalid_body : value :=
  VObj (object_literal [ (js "error", VStr (js "Invalid URL format")) ]).

Definition required_body (r : request) : value :=
  match r with
  | POST _ =>
      VObj (object_literal
        [ (js "error", VStr (js "URL is required"));
          (js "example", VObj (object_literal
             [ (js "url", VStr (js "https://example.com"));
               (js "filename", VStr (js "optional-name.pdf")) ])) ])
  | GET _ =>
      VObj (object_literal
        [ (js "error", VStr (js "URL parameter is required"));
          (js "example",
           VStr (js "/generate-pdf?url=https://example.com&filename=optional-name.pdf")) ])
  end.

(** What the adapter gives to the handler of a request that arrives
    after [history]. *)
Definition adapter_outcome (w : world) (r : request) (history : list event)
  : outcome buffer :=
  let url := default [] (request_url r) in
  (generatePDF w url (Some (request_options r))
     (arrival (history ++ [ConsoleLog (js "Generating PDF for: " ++ url)]))).1.

(** The name that the handler puts into [Content-Disposition]. *)
Definition download_name (r : request) : jsstring :=
  or_else (request_filename r)
    (sanitizeFilename (default [] (request_url r)) ++ js ".pdf").

(** The response that [serve] builds on [r0] for a request that arrives
    after [history]. *)
Definition serve_response (w : world) (r : request) (history : list event)
    (r0 : response) : response :=
  if truthy (request_url r) then
    if URL_parses w (default [] (request_url r)) then
      match adapter_outcome w r history with
      | Returned pdf =>
          if name_ok (download_name r) then pdf_response (download_name r) pdf r0
          else json_response 500
                 (catch_body w (invalid_char_error (js "Content-Disposition")))
                 (with_pdf_type r0)
      | Thrown e => json_response 500 (catch_body w e) r0
      end
    else json_response 400 invalid_body r0
  else json_response 400 (required_body r) r0.

(** The calls that [serve] adds to the log. *)
Definition serve_calls (w : world) (r : request) (history : list event) : list event :=
  if truthy (request_url r) && URL_parses w (default [] (request_url r)) then
    let url := default [] (request_url r) in
    ConsoleLog (js "Generating PDF for: " ++ url)
    :: new_events (generatePDF w url (Some (request_options r)))
         (arrival (history ++ [ConsoleLog (js "Generating PDF for: " ++ url)]))
    ++ match adapter_outcome w r history with
       | Returned _ =>
           if name_ok (download_name r) then []
           else [ConsoleError (js "Error generating PDF:")
                   (message (invalid_char_error (js "Content-Disposition")))]
       | Thrown e => [ConsoleError (js "Error generating PDF:") (message e)]
       end
  else [].

(** The response of the layer that answers a request which arrives
    after [history], before [res.send] looks at the method. *)
Definition layer_response (w : world) (req : http_request) (history : list event)
  : response :=
  match req_parse_error req with
  | Some _ => json_response 500 (internal_error_body w) fresh_response
  | None =>
      match req_method req, req_path req with
      | Get, Root | Head, Root => json_response 200 root_body (after_cors fresh_response)
      | Get, Health | Head, Health =>
          json_response 200 (health_body w) (after_cors fresh_response)
      | Post, GeneratePdf | Get, GeneratePdf | Head, GeneratePdf =>
          serve_response w (as_request req) history (after_cors fresh_response)
      | _, _ => json_response 404 not_found_body (after_cors fresh_response)
      end
  end.

(** The response of the application. *)
Definition app_response (w : world) (req : http_request) (history : list event)
  : response :=
  {| status := status (layer_response w req history);
     headers := headers (layer_response w req history);
     body := sent_body req (body (layer_response w req history)) |}.

(** Whether the request gets as far as the adapter. *)
Definition renders (w : world) (r : request) : bool :=
  truthy (request_url r) && URL_parses w (default [] (request_url r)).

Definition to_generate_pdf (req : http_request) : bool :=
  match req_parse_error req, req_method req, req_path req with
  | None, Post, GeneratePdf | None, Get, GeneratePdf => true
  | _, _, _ => false
  end.

(** Whether a [/generate-pdf] handler takes the request: GET and POST,
    and HEAD through the GET route. *)
Definition reaches_pdf_route (req : http_request) : bool :=
  match req_parse_error req, req_method req, req_path req with
  | None, Post, GeneratePdf | None, Get, GeneratePdf | None, Head, GeneratePdf => true
  | _, _, _ => false
  end.

(** Two requests on the same route. *)
Definition same_route (r1 r2 : request) : bool :=
  match r1, r2 with
  | POST _, POST _ | GET _, GET _ => true
  | _, _ => false
  end.

(** Sample requests to the application. *)
Definition preflight_request : http_request :=
  HttpRequest OtherMethod GeneratePdf ∅ empty_body None.

Definition broken_json_request : http_request :=
  HttpRequest Post GeneratePdf ∅ empty_body
    (Some (Error (js "Unexpected token } in JSON at position 17"))).


Definition get_pdf_request : http_request :=
  HttpRequest Get GeneratePdf plain_query empty_body None.

Definition head_pdf_request : http_request :=
  HttpRequest Head GeneratePdf plain_query empty_body None.

(** A name with a line feed in it. *)
Definition line_feed_name : jsstring := js "a" ++ [10] ++ js "b.pdf".


(** The names of the properties that the literal of [generatePDF] writes
    out. *)
Definition default_keys : list jsstring :=
  [ js "format"; js "printBackground"; js "margin"; js "displayHeaderFooter";
    js "headerTemplate"; js "footerTemplate" ].
Example sanitize_example :
  sanitizeFilename (js "https://Example.com/Path?q=1") = js "example_com_path_q_1".
Proof. reflexivity. Qed.

Example sanitize_uppercase_scheme :
  sanitizeFilename (js "HTTP://Example.com") = js "http___example_com".
Proof. reflexivity. Qed.

(** * Lemmas *)

(** ** [sanitizeFilename] *)

(** Case analysis on every comparison of code units in the goal. *)
Ltac unit_cases :=
  repeat (match goal with
          | |- context [N.leb ?a ?b] => destruct (N.leb_spec a b)
          | |- context [N.eqb ?a ?b] => destruct (N.eqb_spec a b)
          end; simpl in *);
  try first [reflexivity | discriminate | lia].

(** The same, starting with the class tests on the code unit [c]. *)
Ltac class_cases c :=
  destruct (N.leb_spec 97 c), (N.leb_spec c 122), (N.leb_spec 65 c),
    (N.leb_spec c 90), (N.leb_spec 48 c), (N.leb_spec c 57);
  simpl in *; unit_cases.

Lemma starts_with_app p q s :
  starts_with (p ++ q) s = starts_with p s && starts_with q (drop (length p) s).
Proof.
  revert s. induction p as [|a p IH]; intros s; simpl.
  - reflexivity.
  - destruct s as [|b s]; simpl.
    + reflexivity.
    + rewrite IH. apply andb_assoc.
Qed.

Lemma starts_with_prefix p s :
  starts_with p s = true <-> exists r, s = p ++ r.
Proof.
  revert s. induction p as [|a p IH]; intros s; simpl.
  - split; [intros _; exists s; reflexivity | reflexivity].
  - destruct s as [|b s].
    + split; [discriminate | intros [r Hr]; discriminate].
    + rewrite andb_true_iff, N.eqb_eq, IH. split.
      * intros [-> [r ->]]. exists r. reflexivity.
      * intros [r Hr]. injection Hr as -> ->. split; [reflexivity | exists r; reflexivity].
Qed.

(** The backtracking matcher accepts exactly the two scheme texts. *)
Lemma scheme_re_at s : scheme_re s = scheme_at s 0.
Proof.
  unfold scheme_re, scheme_at, match_lit. rewrite drop_0.
  change (js "https://") with (js "http" ++ js "s" ++ js "://").
  change (js "http://") with (js "http" ++ js "://").
  rewrite !starts_with_app.
  destruct (starts_with (js "http") s); [|reflexivity].
  rewrite !andb_true_l.
  destruct (starts_with (js "s") (drop (length (js "http")) s)) eqn:Hs.
  - rewrite andb_true_l.
    destruct (starts_with (js "://") (drop (length (js "s")) _)); [reflexivity|].
    destruct (starts_with (js "://") (drop (length (js "http")) s)) eqn:Hc;
      [|reflexivity].
    apply starts_with_prefix in Hs as [r1 H1].
    apply starts_with_prefix in Hc as [r2 H2].
    rewrite H1 in H2. discriminate.
  - rewrite andb_false_l.
    destruct (starts_with (js "://") (drop (length (js "http")) s)); reflexivity.
Qed.

Lemma scheme_at_cons c t i : scheme_at (c :: t) (S i) = scheme_at t i.
Proof. reflexivity. Qed.

Lemma first_scheme_from_cons c t i fuel :
  first_scheme_from (c :: t) (S i) fuel
  = match first_scheme_from t i fuel with
    | Some (j, n) => Some (S j, n)
    | None => None
    end.
Proof.
  revert i. induction fuel as [|fuel IH]; intros i; simpl;
    rewrite scheme_at_cons; destruct (scheme_at t i); auto.
Qed.

(** The regular-expression replacement removes the leftmost occurrence. *)
Lemma replace_first_scheme s :
  replace_first scheme_re [] s = remove_first_scheme s.
Proof.
  unfold remove_first_scheme, first_scheme.
  induction s as [|c t IH].
  - cbn [replace_first length first_scheme_from].
    rewrite scheme_re_at. destruct (scheme_at [] 0); reflexivity.
  - cbn [replace_first length first_scheme_from].
    rewrite scheme_re_at. destruct (scheme_at (c :: t) 0) as [n|]; [reflexivity|].
    rewrite IH, first_scheme_from_cons.
    destruct (first_scheme_from t 0 (length t)) as [[j n]|]; reflexivity.
Qed.

Lemma replace_class_negb s :
  replace_class (fun c => negb (is_alnum c)) underscore s
  = outside_alnum_to_underscore s.
Proof.
  unfold replace_class, outside_alnum_to_underscore.
  apply map_ext. intros c. destruct (is_alnum c); reflexivity.
Qed.

(** After the class replacement every code unit is ASCII, which is where
    [toLowerCase] is modelled. *)
Lemma replace_class_ascii s :
  Forall (fun c => c < 128) (outside_alnum_to_underscore s).
Proof.
  unfold outside_alnum_to_underscore. apply Forall_map, Forall_forall.
  intros c _. simpl.
  unfold is_alnum, is_lower, is_upper, is_digit, underscore. class_cases c.
Qed.

Lemma lower_replaced_out c :
  out_unit (lower_unit (if is_alnum c then c else underscore)) = true.
Proof.
  unfold out_unit, lower_unit, is_alnum, is_lower, is_upper, is_digit, underscore.
  class_cases c.
Qed.

Lemma sanitize_out s : forallb out_unit (sanitizeFilename s) = true.
Proof.
  unfold sanitizeFilename, substring0, toLowerCase.
  rewrite replace_class_negb. unfold outside_alnum_to_underscore.
  apply forallb_forall. intros c Hc.
  apply list_elem_of_In, elem_of_take in Hc as (i & Hc & _).
  rewrite !list_lookup_fmap in Hc.
  destruct (replace_first scheme_re [] s !! i) as [d|]; [|discriminate].
  injection Hc as <-. apply lower_replaced_out.
Qed.

Lemma sanitize_length s : (length (sanitizeFilename s) <= 50)%nat.
Proof. unfold sanitizeFilename, substring0. rewrite length_take. lia. Qed.

Lemma out_unit_fixed c :
  out_unit c = true -> lower_unit (if is_alnum c then c else underscore) = c.
Proof.
  unfold out_unit, lower_unit, is_alnum, is_lower, is_upper, is_digit, underscore.
  class_cases c; intros; subst; try discriminate; unit_cases.
Qed.

(** A string over the output alphabet holds no scheme: it has no colon. *)
Lemma out_no_scheme s i : forallb out_unit s = true -> scheme_at s i = None.
Proof.
  intros H. unfold scheme_at.
  assert (Hcolon : ~ In 58 (drop i s)).
  { intros Hin. apply list_elem_of_In, (subseteq_drop i s), list_elem_of_In in Hin.
    rewrite forallb_forall in H. apply H in Hin. discriminate. }
  destruct (starts_with (js "https://") (drop i s)) eqn:H8.
  - apply starts_with_prefix in H8 as [r Hr]. exfalso. apply Hcolon.
    rewrite Hr. simpl. tauto.
  - destruct (starts_with (js "http://") (drop i s)) eqn:H7; [|reflexivity].
    apply starts_with_prefix in H7 as [r Hr]. exfalso. apply Hcolon.
    rewrite Hr. simpl. tauto.
Qed.

Lemma first_scheme_from_none s i fuel :
  (forall j, scheme_at s j = None) -> first_scheme_from s i fuel = None.
Proof.
  intros H. revert i. induction fuel as [|fuel IH]; intros i; simpl; rewrite H; auto.
Qed.

Lemma sanitize_fixed s :
  forallb out_unit s = true -> (length s <= 50)%nat -> sanitizeFilename s = s.
Proof.
  intros Hout Hlen. unfold sanitizeFilename, substring0, toLowerCase.
  rewrite replace_class_negb, replace_first_scheme.
  unfold remove_first_scheme, first_scheme.
  rewrite first_scheme_from_none by (intros j; apply out_no_scheme, Hout).
  unfold outside_alnum_to_underscore. rewrite map_map.
  rewrite take_ge by (rewrite length_map; lia).
  rewrite <- (map_id s) at 2. apply map_ext_in.
  intros c Hc. apply out_unit_fixed.
  rewrite forallb_forall in Hout. auto.
Qed.


(** ** Objects *)

Lemma lookup_spread (src tgt : jsobject) (k : jsstring) :
  spread src tgt !! k = match src !! k with Some v => Some v | None => tgt !! k end.
Proof.
  unfold spread.
  apply (map_fold_weak_ind
           (fun (r m : jsobject) =>
              r !! k = match m !! k with Some v => Some v | None => tgt !! k end)).
  - rewrite lookup_empty. reflexivity.
  - intros i x m r Hi IH. destruct (decide (i = k)) as [->|Hne].
    + rewrite !lookup_insert_eq. reflexivity.
    + rewrite !lookup_insert_ne by assumption. exact IH.
Qed.

Lemma spread_empty (tgt : jsobject) : spread ∅ tgt = tgt.
Proof. apply map_eq. intros k. rewrite lookup_spread, lookup_empty. reflexivity. Qed.

(** ** The monad *)

Lemma close_attempts_app l l' :
  close_attempts (l ++ l') = (close_attempts l + close_attempts l')%nat.
Proof. unfold close_attempts. rewrite List.filter_app, length_app. reflexivity. Qed.

(** ** [generatePDF] run to its end *)

Ltac norm_log :=
  repeat rewrite <- app_assoc; simpl;
  repeat rewrite close_attempts_app; simpl;
  repeat rewrite Nat.add_0_r; repeat rewrite Nat.add_1_r.

(** The whole behaviour of the adapter, path by path. *)
Lemma generatePDF_run w url options s :
  generatePDF w url options s =
  let opts := pdfOptions (default ∅ options) in
  let n := close_attempts (log s) in
  match launch w launchOptions with
  | Thrown e =>
      (Thrown e,
       {| log := log s ++ [Launch launchOptions]; browser := None; res := res s |})
  | Returned b =>
      let st k :=
        {| log := log s ++ Launch launchOptions :: (render w b url opts).1 ++ repeat (Close b) k;
           browser := Some b; res := res s |} in
      match (render w b url opts).2, close w n with
      | Returned pdf, Returned _ => (Returned pdf, st 1%nat)
      | Returned pdf, Thrown e1 =>
          (match close w (S n) with Returned _ => Thrown e1 | Thrown e2 => Thrown e2 end,
           st 2%nat)
      | Thrown e, Returned _ => (Thrown e, st 1%nat)
      | Thrown e, Thrown e1 => (Thrown e1, st 1%nat)
      end
  end.
Proof.
  unfold generatePDF, render, step, bind, try_catch, call, set_browser, get_browser,
    browser_close, throw, ret, call; simpl.
  destruct (launch w launchOptions) as [b|e]; simpl; [|reflexivity].
  destruct (newPage w b) as [[]|e]; simpl;
    [destruct (setViewport w) as [[]|e]; simpl;
      [destruct (setUserAgent w) as [[]|e]; simpl;
        [destruct (goto w url) as [[]|e]; simpl;
          [destruct (waitForTimeout w) as [[]|e]; simpl;
            [destruct (pdf w url (pdfOptions (default ∅ options))) as [buf|e]; simpl|]|]|]|]|];
    norm_log;
    repeat match goal with
           | |- context [close w ?n] => destruct (close w n) as [[]|?]; simpl; norm_log
           end;
    reflexivity.
Qed.

Arguments generatePDF : simpl never.

(** The adapter leaves the response alone and only adds to the log. *)
Lemma generatePDF_frame w url options s :
  res (generatePDF w url options s).2 = res s
  /\ log (generatePDF w url options s).2
     = log s ++ new_events (generatePDF w url options) s.
Proof.
  unfold new_events. rewrite generatePDF_run. simpl.
  destruct (launch w launchOptions) as [b|e]; simpl.
  - destruct (render w b url _).2, (close w _); simpl;
      rewrite drop_app_length; auto.
  - rewrite drop_app_length; auto.
Qed.

(** ** The handlers run to their end *)

Lemma isValidUrl_run w url s : isValidUrl w url s = (Returned (URL_parses w url), s).
Proof.
  unfold isValidUrl, URL_new, try_catch, bind, ret, throw.
  destruct (URL_parses w url); reflexivity.
Qed.

Lemma post_run w req s :
  post_generate_pdf w req s =
  if truthy (body_url req) then
    if URL_parses w (default [] (body_url req)) then
      deliver w (default [] (body_url req)) (body_filename req)
        (Some (default ∅ (body_options req))) s
    else
      (res_status 400 >>
       res_json (VObj (object_literal [ (js "error", VStr (js "Invalid URL format")) ]))) s
  else
    (res_status 400 >>
     res_json (VObj (object_literal
       [ (js "error", VStr (js "URL is required"));
         (js "example", VObj (object_literal
            [ (js "url", VStr (js "https://example.com"));
              (js "filename", VStr (js "optional-name.pdf")) ])) ]))) s.
Proof.
  unfold post_generate_pdf, deliver, try_catch.
  destruct (truthy (body_url req)); simpl; [|reflexivity].
  unfold bind at 1. rewrite isValidUrl_run.
  destruct (URL_parses w _); simpl; [|reflexivity].
  unfold bind at 1, console_log. simpl. unfold bind at 1.
  destruct (generatePDF w _ _ _) as [[pdf|e] s']; [|reflexivity].
  unfold try_catch. destruct (send_pdf _ pdf s') as [[[]|e] s'']; reflexivity.
Qed.

Lemma get_run w query s :
  get_generate_pdf w query s =
  if truthy (query !! js "url") then
    if URL_parses w (default [] (query !! js "url")) then
      deliver w (default [] (query !! js "url")) (query !! js "filename") None s
    else
      (res_status 400 >>
       res_json (VObj (object_literal [ (js "error", VStr (js "Invalid URL format")) ]))) s
  else
    (res_status 400 >>
     res_json (VObj (object_literal
       [ (js "error", VStr (js "URL parameter is required"));
         (js "example",
          VStr (js "/generate-pdf?url=https://example.com&filename=optional-name.pdf")) ]))) s.
Proof.
  unfold get_generate_pdf, deliver, try_catch.
  destruct (truthy (query !! js "url")); simpl; [|reflexivity].
  unfold bind at 1. rewrite isValidUrl_run.
  destruct (URL_parses w _); simpl; [|reflexivity].
  unfold bind at 1, console_log. simpl. unfold bind at 1.
  destruct (generatePDF w _ _ _) as [[pdf|e] s']; [|reflexivity].
  unfold try_catch. destruct (send_pdf _ pdf s') as [[[]|e] s'']; reflexivity.
Qed.

Lemma serve_run w r s :
  serve w r s =
  if truthy (request_url r) then
    if URL_parses w (default [] (request_url r)) then
      deliver w (default [] (request_url r)) (request_filename r)
        (Some (request_options r)) s
    else
      (res_status 400 >>
       res_json (VObj (object_literal [ (js "error", VStr (js "Invalid URL format")) ]))) s
  else
    match r with
    | POST _ =>
        (res_status 400 >>
         res_json (VObj (object_literal
           [ (js "error", VStr (js "URL is required"));
             (js "example", VObj (object_literal
                [ (js "url", VStr (js "https://example.com"));
                  (js "filename", VStr (js "optional-name.pdf")) ])) ]))) s
    | GET _ =>
        (res_status 400 >>
         res_json (VObj (object_literal
           [ (js "error", VStr (js "URL parameter is required"));
             (js "example",
              VStr (js "/generate-pdf?url=https://example.com&filename=optional-name.pdf")) ]))) s
    end.
Proof.
  destruct r as [b|q]; simpl.
  - apply post_run.
  - apply get_run.
Qed.

(** Keys of an object or of the header map that are different literals. *)
Ltac key_ne := let H := fresh in intros H; vm_compute in H; discriminate.

Ltac lookup_keys :=
  repeat first [ rewrite lookup_insert_eq | rewrite lookup_insert_ne by key_ne ].

(** *** The pieces of a response *)

Lemma setHeader_run k v s :
  res_setHeader k v s =
  if header_value_ok v then
    (Returned tt,
     {| log := log s; browser := browser s;
        res := {| status := status (res s); headers := <[k := v]> (headers (res s));
                  body := body (res s) |} |})
  else (Thrown (invalid_char_error k), s).
Proof. unfold res_setHeader. destruct (header_value_ok v); reflexivity. Qed.

Lemma send_pdf_run name pdf s :
  send_pdf name pdf s =
  if name_ok name then
    (Returned tt,
     {| log := log s; browser := browser s; res := pdf_response name pdf (res s) |})
  else
    (Thrown (invalid_char_error (js "Content-Disposition")),
     {| log := log s; browser := browser s; res := with_pdf_type (res s) |}).
Proof.
  unfold send_pdf, name_ok, bind. rewrite setHeader_run.
  change (header_value_ok (HStr (js "application/pdf"))) with true. cbv iota.
  rewrite setHeader_run.
  destruct (header_value_ok (HStr (contentDisposition name))); [|reflexivity].
  rewrite setHeader_run. reflexivity.
Qed.

Lemma json_run code v s :
  (res_status code >> res_json v) s =
  (Returned tt,
   {| log := log s; browser := browser s; res := json_response code v (res s) |}).
Proof. reflexivity. Qed.

Lemma report_failure_run w e s :
  report_failure w e s =
  (Returned tt,
   {| log := log s ++ [ConsoleError (js "Error generating PDF:") (message e)];
      browser := browser s;
      res := json_response 500 (catch_body w e) (res s) |}).
Proof. reflexivity. Qed.

(** [deliver] from any state, by the outcome of the adapter and by
    whether [setHeader] accepts the name. *)
Lemma deliver_run w url filename options s :
  let g := generatePDF w url options
             (call (ConsoleLog (js "Generating PDF for: " ++ url)) (Returned tt) s).2 in
  let name := or_else filename (sanitizeFilename url ++ js ".pdf") in
  deliver w url filename options s =
  match g.1 with
  | Returned pdf =>
      if name_ok name then
        (Returned tt,
         {| log := log g.2; browser := browser g.2;
            res := pdf_response name pdf (res s) |})
      else
        (Returned tt,
         {| log := log g.2
                   ++ [ConsoleError (js "Error generating PDF:")
                         (message (invalid_char_error (js "Content-Disposition")))];
            browser := browser g.2;
            res := json_response 500
                     (catch_body w (invalid_char_error (js "Content-Disposition")))
                     (with_pdf_type (res s)) |})
  | Thrown e =>
      (Returned tt,
       {| log := log g.2 ++ [ConsoleError (js "Error generating PDF:") (message e)];
          browser := browser g.2;
          res := json_response 500 (catch_body w e) (res s) |})
  end.
Proof.
  intros g name. subst g. unfold deliver. fold name.
  pose proof (generatePDF_frame w url options
                (call (ConsoleLog (js "Generating PDF for: " ++ url)) (Returned tt) s).2)
    as [Hres _].
  destruct (generatePDF w url options _) as [[pdf|e] s2]; cbn [fst snd] in *.
  - unfold try_catch. rewrite send_pdf_run.
    destruct (name_ok name).
    + rewrite Hres. reflexivity.
    + rewrite report_failure_run. cbn [log browser res]. rewrite Hres. reflexivity.
  - rewrite report_failure_run. rewrite Hres. reflexivity.
Qed.

(** The response of [deliver] to a request that has just arrived. *)
Lemma deliver_response w url filename options history :
  let s1 := (call (ConsoleLog (js "Generating PDF for: " ++ url)) (Returned tt)
               (arrival history)).2 in
  let out := deliver w url filename options (arrival history) in
  let name := or_else filename (sanitizeFilename url ++ js ".pdf") in
  out.1 = Returned tt /\
  match (generatePDF w url options s1).1 with
  | Returned pdf =>
      res out.2 =
      if name_ok name then pdf_response name pdf fresh_response
      else json_response 500
             (catch_body w (invalid_char_error (js "Content-Disposition")))
             (with_pdf_type fresh_response)
  | Thrown e => res out.2 = json_response 500 (catch_body w e) fresh_response
  end.
Proof.
  intros s1 out name. subst out. rewrite deliver_run. cbv zeta. fold s1. fold name.
  destruct (generatePDF w url options s1).1; [destruct (name_ok name)|]; auto.
Qed.

(** ** The log of a render *)

Lemma pdf_args_app l l' : pdf_args (l ++ l') = pdf_args l ++ pdf_args l'.
Proof. apply omap_app. Qed.

Lemma render_no_close w b url opts : List.filter is_close (render w b url opts).1 = [].
Proof.
  unfold render, step.
  destruct (newPage w b), (setViewport w), (setUserAgent w), (goto w url),
    (waitForTimeout w); reflexivity.
Qed.

Lemma render_pdf_args w b url opts :
  pdf_args (render w b url opts).1 =
  if returned (newPage w b) && returned (setViewport w) && returned (setUserAgent w)
     && returned (goto w url) && returned (waitForTimeout w)
  then [opts] else [].
Proof.
  unfold render, step.
  destruct (newPage w b), (setViewport w), (setUserAgent w), (goto w url),
    (waitForTimeout w); reflexivity.
Qed.

(** The calls that one run of the adapter adds to the log: the session is
    closed once, or twice when the export returned and the first
    [close] raised. *)
Lemma generatePDF_events w url options s :
  new_events (generatePDF w url options) s =
  match launch w launchOptions with
  | Thrown _ => [Launch launchOptions]
  | Returned b =>
      let r := render w b url (pdfOptions (default ∅ options)) in
      Launch launchOptions :: r.1 ++
        repeat (Close b)
          (if returned r.2 && negb (returned (close w (close_attempts (log s))))
           then 2 else 1)
  end.
Proof.
  unfold new_events. rewrite generatePDF_run. simpl.
  destruct (launch w launchOptions) as [b|e]; simpl.
  - destruct (render w b url _).2, (close w _); simpl;
      rewrite drop_app_length; reflexivity.
  - rewrite drop_app_length; reflexivity.
Qed.

Lemma generatePDF_pdf_args w url options s :
  pdf_args (new_events (generatePDF w url options) s)
  = if reaches_export w url then [pdfOptions (default ∅ options)] else [].
Proof.
  rewrite generatePDF_events. unfold reaches_export.
  destruct (launch w launchOptions) as [b|e]; [|reflexivity].
  cbv zeta. change (pdf_args (Launch launchOptions :: ?l)) with (pdf_args l).
  rewrite pdf_args_app, render_pdf_args.
  assert (forall k, pdf_args (repeat (Close b) k) = []) as ->.
  { intros k. induction k; auto. }
  apply app_nil_r.
Qed.

(** The calls that [deliver] adds: the line on the console, the run of
    the adapter and, when the adapter or [setHeader] raised, the error on
    the console. *)
Lemma deliver_events w url filename options history :
  let s1 := (call (ConsoleLog (js "Generating PDF for: " ++ url)) (Returned tt)
               (arrival history)).2 in
  new_events (deliver w url filename options) (arrival history) =
  ConsoleLog (js "Generating PDF for: " ++ url)
  :: new_events (generatePDF w url options) s1
  ++ match (generatePDF w url options s1).1 with
     | Returned _ =>
         if name_ok (or_else filename (sanitizeFilename url ++ js ".pdf")) then []
         else [ConsoleError (js "Error generating PDF:")
                 (message (invalid_char_error (js "Content-Disposition")))]
     | Thrown e => [ConsoleError (js "Error generating PDF:") (message e)]
     end.
Proof.
  intros s1. unfold new_events at 1. rewrite deliver_run. cbv zeta. fold s1.
  pose proof (generatePDF_frame w url options s1) as [_ Hlog].
  destruct (generatePDF w url options s1).1; [destruct (name_ok _)|];
    cbn [snd log arrival]; rewrite Hlog;
    change (log s1) with (history ++ [ConsoleLog (js "Generating PDF for: " ++ url)]);
    rewrite <- ?app_assoc, drop_app_length, ?app_nil_r; reflexivity.
Qed.

(** A request that is turned away adds nothing to the log. *)
Lemma serve_events w r history :
  new_events (serve w r) (arrival history) =
  if truthy (request_url r) && URL_parses w (default [] (request_url r)) then
    new_events (deliver w (default [] (request_url r)) (request_filename r)
                  (Some (request_options r))) (arrival history)
  else [].
Proof.
  unfold new_events at 1. rewrite serve_run.
  destruct (truthy (request_url r)); simpl.
  - destruct (URL_parses w _); simpl; [reflexivity|].
    apply drop_all.
  - destruct r; simpl; apply drop_all.
Qed.

Lemma serve_pdf_args w r history :
  pdf_args (new_events (serve w r) (arrival history)) =
  if truthy (request_url r) && URL_parses w (default [] (request_url r))
     && reaches_export w (default [] (request_url r))
  then [pdfOptions (request_options r)] else [].
Proof.
  rewrite serve_events.
  destruct (truthy (request_url r) && URL_parses w _); simpl; [|reflexivity].
  rewrite deliver_events. cbv zeta.
  change (pdf_args (ConsoleLog ?x :: ?l)) with (pdf_args l).
  rewrite pdf_args_app, generatePDF_pdf_args.
  destruct (generatePDF w _ _ _).1; [destruct (name_ok _)|]; simpl; apply app_nil_r.
Qed.

(** ** The handlers from any state *)

(** The run of the adapter looks at the log only. *)
Lemma generatePDF_log_only w url options s s' :
  log s = log s' ->
  (generatePDF w url options s).1 = (generatePDF w url options s').1
  /\ log (generatePDF w url options s).2 = log (generatePDF w url options s').2.
Proof.
  intros Hlog. rewrite !generatePDF_run. cbv zeta. rewrite Hlog.
  destruct (launch w launchOptions) as [b|e]; simpl; [|auto].
  destruct (render w b url _).2, (close w _); simpl; auto.
Qed.

(** A handler returns, whatever the adapter and [setHeader] do; its
    response and its calls, from any state. *)
Lemma serve_from w r s :
  (serve w r s).1 = Returned tt
  /\ res (serve w r s).2 = serve_response w r (log s) (res s)
  /\ log (serve w r s).2 = log s ++ serve_calls w r (log s).
Proof.
  rewrite serve_run. unfold serve_response, serve_calls, adapter_outcome, download_name.
  destruct (truthy (request_url r)); cbn [andb].
  - destruct (URL_parses w _).
    + rewrite deliver_run. cbv zeta.
      set (url := default [] (request_url r)).
      set (line := ConsoleLog (js "Generating PDF for: " ++ url)).
      destruct (generatePDF_log_only w url (Some (request_options r))
                  (call line (Returned tt) s).2 (arrival (log s ++ [line])) eq_refl)
        as [Hout Hlog].
      pose proof (generatePDF_frame w url (Some (request_options r))
                    (arrival (log s ++ [line]))) as [_ Hnew].
      rewrite Hout.
      destruct (generatePDF w url _ (arrival _)).1; [destruct (name_ok _)|];
        cbn [fst snd log res];
        rewrite Hlog, Hnew; cbn [log arrival]; rewrite <- ?app_assoc; simpl;
        rewrite ?app_nil_r; auto.
    + rewrite json_run, app_nil_r. auto.
  - destruct r; rewrite json_run, app_nil_r; auto.
Qed.

(** * Properties of the service *)

(** ** [sanitizeFilename] *)

(** The first step, seen from the input: nothing changes when no scheme
    occurs; otherwise the input splits around the leftmost occurrence,
    which alone is taken out. *)
Lemma remove_first_scheme_split s :
  match first_scheme s with
  | None => remove_first_scheme s = s
  | Some (i, n) =>
      exists sch, (sch = js "http://" \/ sch = js "https://")
      /\ length sch = n
      /\ s = take i s ++ sch ++ drop (i + n) s
      /\ remove_first_scheme s = take i s ++ drop (i + n) s
  end.
Proof.
  unfold remove_first_scheme.
  destruct (first_scheme s) as [[i n]|] eqn:Hf; [|reflexivity].
  assert (Hat : scheme_at s i = Some n).
  { unfold first_scheme in Hf. revert Hf. generalize 0%nat at 1. generalize (length s).
    intros fuel. induction fuel as [|fuel IH]; intros j; simpl;
      destruct (scheme_at s j) eqn:Hj; intros Heq; try discriminate;
      try (injection Heq as -> ->; exact Hj).
    apply (IH _ Heq). }
  unfold scheme_at in Hat.
  destruct (starts_with (js "https://") (drop i s)) eqn:H8.
  - injection Hat as <-. apply starts_with_prefix in H8 as [r Hr].
    exists (js "https://"). repeat split; auto.
    rewrite <- (take_drop i s) at 1. f_equal. rewrite Hr at 1. f_equal.
    rewrite <- drop_drop, Hr. reflexivity.
  - destruct (starts_with (js "http://") (drop i s)) eqn:H7; [|discriminate].
    injection Hat as <-. apply starts_with_prefix in H7 as [r Hr].
    exists (js "http://"). repeat split; auto.
    rewrite <- (take_drop i s) at 1. f_equal. rewrite Hr at 1. f_equal.
    rewrite <- drop_drop, Hr. reflexivity.
Qed.

Lemma first_scheme_head s :
  first_scheme s =
  match scheme_at s 0 with
  | Some n => Some (0%nat, n)
  | None => first_scheme s
  end.
Proof.
  unfold first_scheme. destruct (length s); simpl; destruct (scheme_at s 0); reflexivity.
Qed.

Lemma first_scheme_none_head s : first_scheme s = None -> scheme_at s 0 = None.
Proof.
  rewrite first_scheme_head. destruct (scheme_at s 0); [discriminate | reflexivity].
Qed.

(** Where the scheme leads or is absent, the code and the four steps as
    the specification words them agree. *)
Lemma sanitize_agrees_when_leading s :
  scheme_at s 0 <> None \/ first_scheme s = None ->
  sanitizeFilename s = sanitizeFilename_spec s.
Proof.
  intros H. unfold sanitizeFilename, sanitizeFilename_spec, substring0, truncate50.
  rewrite replace_class_negb, replace_first_scheme. do 3 f_equal.
  unfold remove_first_scheme, strip_leading_scheme.
  assert (Hhead : match scheme_at s 0 with
                  | Some n => first_scheme s = Some (0%nat, n)
                  | None => first_scheme s = None
                  end).
  { destruct H as [H|H].
    - rewrite first_scheme_head. destruct (scheme_at s 0); [reflexivity | congruence].
    - rewrite (first_scheme_none_head s H). exact H. }
  unfold scheme_at in Hhead. rewrite drop_0 in Hhead.
  destruct (starts_with (js "https://") s).
  - rewrite Hhead. reflexivity.
  - destruct (starts_with (js "http://") s); rewrite Hhead; reflexivity.
Qed.

(** C2, as the code has it.  [sanitizeFilename] is the four-step
    algorithm whose first step takes out the leftmost occurrence of
    [http://] or [https://], wherever in the input it starts: the result
    is the truncation to 50 code units of the lowercased, underscored
    input without that occurrence; and the example of the specification
    evaluates as stated. *)
Theorem sanitizeFilename_four_steps :
  (forall s, sanitizeFilename s = sanitizeFilename_first s)
  /\ (forall s,
        match first_scheme s with
        | None => remove_first_scheme s = s
        | Some (i, n) =>
            exists sch, (sch = js "http://" \/ sch = js "https://")
            /\ length sch = n
            /\ s = take i s ++ sch ++ drop (i + n) s
            /\ remove_first_scheme s = take i s ++ drop (i + n) s
        end)
  /\ sanitizeFilename (js "https://Example.com/Path?q=1") = js "example_com_path_q_1".
Proof.
  split; [|split].
  - intros s. unfold sanitizeFilename, sanitizeFilename_first, substring0, truncate50.
    rewrite replace_class_negb, replace_first_scheme. reflexivity.
  - exact remove_first_scheme_split.
  - reflexivity.
Qed.

(** C2, as stated, fails where a scheme starts inside the input: the
    code takes it out, the four steps of the specification keep it. *)
Lemma sanitizeFilename_inner_scheme :
  sanitizeFilename (js "ftp://a.b/http://c") = js "ftp___a_b_c"
  /\ sanitizeFilename_spec (js "ftp://a.b/http://c") = js "ftp___a_b_http___c".
Proof. split; reflexivity. Qed.

(** C3.  For every string the result of [sanitizeFilename] has at most 50
    code units and matches [^[a-z0-9_]*$]: each code unit is a lowercase
    ASCII letter, a digit or the underscore.  The embedding is a function
    of the string alone, defined on every string: it raises nothing and
    gives equal results on equal inputs. *)
Theorem sanitizeFilename_safe s :
  (length (sanitizeFilename s) <= 50)%nat
  /\ matches_out_re (sanitizeFilename s) = true
  /\ Forall (fun c => (97 <= c <= 122) \/ (48 <= c <= 57) \/ c = 95) (sanitizeFilename s).
Proof.
  split; [apply sanitize_length|]. split; [apply sanitize_out|].
  - apply Forall_forall. intros c Hc.
    pose proof (sanitize_out s) as H. rewrite forallb_forall in H.
    apply list_elem_of_In, H in Hc.
    unfold out_unit, is_lower, is_digit, underscore in Hc.
    apply orb_true_iff in Hc as [Hc|Hc]; [apply orb_true_iff in Hc as [Hc|Hc]|].
    + apply andb_true_iff in Hc as [H1 H2]. apply N.leb_le in H1, H2. lia.
    + apply andb_true_iff in Hc as [H1 H2]. apply N.leb_le in H1, H2. lia.
    + apply N.eqb_eq in Hc. lia.
Qed.

(** C9.  [sanitizeFilename] is idempotent: its result holds no colon, so
    no scheme; it is over [a-z0-9_] and has at most 50 code units, so
    each of the four steps leaves it as it is. *)
Theorem sanitizeFilename_idempotent s :
  sanitizeFilename (sanitizeFilename s) = sanitizeFilename s.
Proof.
  apply sanitize_fixed.
  - apply sanitize_out.
  - apply sanitize_length.
Qed.

(** ** [isValidUrl] *)

(** C6.  For every string [isValidUrl] returns, raises nothing and leaves
    the state as it was; it returns [true] exactly when the platform's
    parser accepts the string, that is when [new URL] returns, and [false]
    when [new URL] raises. *)
Theorem isValidUrl_total w S s :
  exists b, isValidUrl w S s = (Returned b, s)
  /\ (b = true <-> URL_parses w S = true)
  /\ (b = true <-> (URL_new w S s).1 = Returned tt)
  /\ (b = false <-> exists e, (URL_new w S s).1 = Thrown e).
Proof.
  exists (URL_parses w S). rewrite isValidUrl_run. split; [reflexivity|].
  split; [reflexivity|]. unfold URL_new, ret, throw.
  destruct (URL_parses w S); simpl; split; split; intros H; try discriminate; eauto.
  - destruct H as [e H]. discriminate.
Qed.

(** ** The options of the export *)

(** C4.  Whatever mapping the caller passes, the object handed to
    [page.pdf] (when the render gets that far) is the literal of the
    source with the caller's mapping spread over it: key by key, the
    caller's value where the caller has the key, the default otherwise,
    and so every key the defaults do not know passes through unchanged.
    The defaults are format A4, background printing on, a margin of 20px
    on each of the four sides, a header template that is a [div] without
    content (no text outside its tags), and a footer template that shows
    the page number, a slash and the number of pages. *)
Theorem pdf_receives_merged_options (w : world) (url : jsstring) (options : jsobject)
    (s : state) :
  pdf_args (new_events (generatePDF w url (Some options)) s)
  = (if reaches_export w url then [pdfOptions options] else [])
  /\ (forall k, pdfOptions options !! k
               = match options !! k with Some v => Some v | None => pdfDefaults !! k end)
  /\ (forall k, pdfDefaults !! k = None -> pdfOptions options !! k = options !! k)
  /\ pdfDefaults !! js "format" = Some (VStr (js "A4"))
  /\ pdfDefaults !! js "printBackground" = Some (VBool true)
  /\ pdfDefaults !! js "margin" = Some (VObj defaultMargin)
  /\ defaultMargin !! js "top" = Some (VStr (js "20px"))
  /\ defaultMargin !! js "right" = Some (VStr (js "20px"))
  /\ defaultMargin !! js "bottom" = Some (VStr (js "20px"))
  /\ defaultMargin !! js "left" = Some (VStr (js "20px"))
  /\ pdfDefaults !! js "headerTemplate"
     = Some (VStr (js_dq "<div style='font-size: 10px; margin: auto;'></div>"))
  /\ text_outside_tags false headerTemplate = []
  /\ pdfDefaults !! js "footerTemplate" = Some (VStr footerTemplate)
  /\ text_outside_tags false footerTemplate = js " / "
  /\ occurs_in
       (js_dq "<span class='pageNumber'></span> / <span class='totalPages'></span>")
       footerTemplate = true.
Proof.
  split; [apply generatePDF_pdf_args|].
  split; [intros k; apply lookup_spread|].
  split.
  { intros k Hk. unfold pdfOptions. rewrite lookup_spread, Hk.
    destruct (options !! k); reflexivity. }
  repeat split; vm_compute; reflexivity.
Qed.

(** The README's example: the caller's [format] and [margin] replace the
    defaults whole, [landscape] passes through, [printBackground] stays. *)
Lemma pdf_receives_merged_options_readme :
  pdf_args (new_events (generatePDF ok_world (js "https://example.com")
                          (Some readme_options)) initial_state)
  = [pdfOptions readme_options]
  /\ pdfOptions readme_options !! js "format" = Some (VStr (js "A3"))
  /\ pdfOptions readme_options !! js "landscape" = Some (VBool true)
  /\ pdfOptions readme_options !! js "printBackground" = Some (VBool true)
  /\ pdfOptions readme_options !! js "margin"
     = Some (VObj (object_literal
          [ (js "top", VStr (js "50px")); (js "bottom", VStr (js "50px")) ])).
Proof.
  destruct (pdf_receives_merged_options ok_world (js "https://example.com")
              readme_options initial_state) as (Hargs & Hkey & Hpass & _).
  split; [exact Hargs|].
  rewrite (Hkey (js "format")), (Hpass (js "landscape")), (Hkey (js "printBackground")),
    (Hkey (js "margin")) by (vm_compute; reflexivity).
  repeat split; vm_compute; reflexivity.
Defined.

(** C5.  Two GET requests with the same [url] hand the same options to
    the engine, whatever else their queries hold: on this route the
    adapter is called without options, so each export gets the defaults
    and nothing of the query. *)
Theorem get_ignores_query_options (w : world) (q1 q2 : gmap jsstring jsstring)
    (history : list event) :
  q1 !! js "url" = q2 !! js "url" ->
  pdf_args (new_events (serve w (GET q1)) (arrival history))
  = pdf_args (new_events (serve w (GET q2)) (arrival history))
  /\ Forall (fun o => o = pdfDefaults)
       (pdf_args (new_events (serve w (GET q1)) (arrival history))).
Proof.
  intros Hurl. rewrite !serve_pdf_args. simpl. rewrite Hurl. split; [reflexivity|].
  unfold pdfOptions. rewrite spread_empty.
  destruct (_ && _); repeat constructor.
Qed.

(** A bare query and one loaded with option-like parameters. *)
Lemma get_ignores_query_options_sample :
  pdf_args (new_events (serve ok_world (GET plain_query)) (arrival []))
  = pdf_args (new_events (serve ok_world (GET loaded_query)) (arrival []))
  /\ Forall (fun o => o = pdfDefaults)
       (pdf_args (new_events (serve ok_world (GET plain_query)) (arrival []))).
Proof.
  apply (get_ignores_query_options ok_world plain_query loaded_query []).
  vm_compute. reflexivity.
Defined.

(** ** The session of a render *)

Section CloseReturns.

(** The assumption under which the session is closed once: the call
    that closes it returns, at every attempt. *)
Variable w : world.
Hypothesis close_returns : forall n, close w n = Returned tt.

Lemma generatePDF_outcome (url : jsstring) (options : option jsobject) (s : state) :
  (generatePDF w url options s).1
  = render_outcome w url (pdfOptions (default ∅ options)).
Proof.
  rewrite generatePDF_run. unfold render_outcome. cbv zeta.
  destruct (launch w launchOptions) as [b|e]; [|reflexivity].
  rewrite close_returns. destruct (render w b url _).2; reflexivity.
Qed.

Lemma generatePDF_closes (url : jsstring) (options : option jsobject) (s : state) :
  List.filter is_close (new_events (generatePDF w url options) s)
  = match launch w launchOptions with
    | Returned b => [Close b]
    | Thrown _ => []
    end.
Proof.
  rewrite generatePDF_events.
  destruct (launch w launchOptions) as [b|e]; [|reflexivity].
  cbv zeta. rewrite close_returns. simpl. rewrite andb_false_r.
  rewrite List.filter_app, render_no_close. reflexivity.
Qed.

(** C1, as the code has it.  Provided [browser.close()] itself does not
    raise: the adapter gives the outcome of launch, page set-up,
    navigation, settle wait and export taken together (the buffer, or the
    error of the first of them that raised, unchanged); a session that was
    launched is closed exactly once on the way, and when the launch raised
    no close is attempted; and for a request with a valid address whose
    render raised error [e], the handler answers 500 with a JSON body of
    the fields [error], [message] (the message of [e]) and [timestamp]. *)
Theorem generatePDF_releases_session :
  (forall (url : jsstring) (options : option jsobject) (s : state),
     (generatePDF w url options s).1
     = render_outcome w url (pdfOptions (default ∅ options))
     /\ List.filter is_close (new_events (generatePDF w url options) s)
        = match launch w launchOptions with
          | Returned b => [Close b]
          | Thrown _ => []
          end)
  /\ (forall (r : request) (history : list event) (e : error),
        truthy (request_url r) = true ->
        URL_parses w (default [] (request_url r)) = true ->
        render_outcome w (default [] (request_url r)) (pdfOptions (request_options r))
        = Thrown e ->
        (serve w r (arrival history)).1 = Returned tt
        /\ status (res (serve w r (arrival history)).2) = 500%nat
        /\ body (res (serve w r (arrival history)).2)
           = Some (Json (VObj (object_literal
               [ (js "error", VStr (js "Failed to generate PDF"));
                 (js "message", VStr (message e));
                 (js "timestamp", VStr (now w)) ])))).
Proof.
  split.
  - intros url options s. split; [apply generatePDF_outcome | apply generatePDF_closes].
  - intros r history e Htruthy Hparses Hfail.
    rewrite serve_run, Htruthy, Hparses.
    pose proof (deliver_response w (default [] (request_url r)) (request_filename r)
                  (Some (request_options r)) history) as [Hret Hres].
    rewrite generatePDF_outcome in Hres. simpl in Hres. rewrite Hfail in Hres.
    rewrite Hres. auto.
Qed.

End CloseReturns.

(** A navigation timeout: the session is closed once, the timeout error
    reaches the caller, the handler answers 500. *)
Lemma generatePDF_releases_session_timeout :
  ((generatePDF timeout_world (js "https://example.com") None initial_state).1
   = Thrown (Error (js "Navigation timeout of 30000 ms exceeded"))
   /\ List.filter is_close
        (new_events (generatePDF timeout_world (js "https://example.com") None)
           initial_state)
      = [Close 1%nat])
  /\ status (res (serve timeout_world (GET plain_query) (arrival [])).2) = 500%nat.
Proof.
  pose proof (generatePDF_releases_session timeout_world (fun _ => eq_refl)) as [Ha He].
  split.
  - apply (Ha (js "https://example.com") None initial_state).
  - apply (He (GET plain_query) []
             (Error (js "Navigation timeout of 30000 ms exceeded")));
      vm_compute; reflexivity.
Defined.

(** C1, as stated, fails when [browser.close()] raises after the export
    returned: the [catch] block calls [close] again, so the session sees
    two close attempts (none of which returned), and the caller gets the
    error of [close]. *)
Lemma generatePDF_close_raises_twice :
  launch close_fails_world launchOptions = Returned 1%nat
  /\ (render close_fails_world 1 (js "https://example.com") (pdfOptions ∅)).2
     = Returned sample_pdf
  /\ List.filter is_close
       (log (generatePDF close_fails_world (js "https://example.com") None
               initial_state).2)
     = [Close 1%nat; Close 1%nat]
  /\ (generatePDF close_fails_world (js "https://example.com") None initial_state).1
     = Thrown (Error (js "Protocol error: Connection closed.")).
Proof. repeat split; vm_compute; reflexivity. Qed.

(** ** Requests that are turned away *)

(** C7, as the code has it.  A request whose [url] is missing or empty,
    or does not parse, is answered 400 without any call being made: the
    log is what it was, so no session is launched.  The body's [error] is
    [Invalid URL format] for an address that is there, not empty and does
    not parse; for a missing or empty one it is [URL is required] on POST
    and [URL parameter is required] on GET. *)
Theorem invalid_request_rejected (w : world) (r : request) (history : list event) :
  truthy (request_url r) = false
  \/ URL_parses w (default [] (request_url r)) = false ->
  (serve w r (arrival history)).1 = Returned tt
  /\ log (serve w r (arrival history)).2 = history
  /\ status (res (serve w r (arrival history)).2) = 400%nat
  /\ exists o : jsobject,
       body (res (serve w r (arrival history)).2) = Some (Json (VObj o))
       /\ o !! js "error"
          = Some (VStr (if truthy (request_url r) then js "Invalid URL format"
                        else match r with
                             | POST _ => js "URL is required"
                             | GET _ => js "URL parameter is required"
                             end)).
Proof.
  intros H. rewrite serve_run.
  destruct (truthy (request_url r)) eqn:Ht.
  - destruct H as [H|H]; [discriminate|]. rewrite H. simpl.
    repeat split. eexists. split; [reflexivity|]. vm_compute. reflexivity.
  - destruct r; simpl; repeat split; eexists; (split; [reflexivity|]);
      vm_compute; reflexivity.
Qed.

(** The two POST examples of the specification: an empty body, and an
    address without a scheme. *)
Lemma invalid_request_rejected_samples :
  (status (res (serve ok_world (POST (PostBody None None None)) (arrival [])).2) = 400%nat
   /\ log (serve ok_world (POST (PostBody None None None)) (arrival [])).2 = [])
  /\ (status (res (serve ok_world (POST (PostBody (Some (js "not-a-url")) None None))
                     (arrival [])).2) = 400%nat
      /\ log (serve ok_world (POST (PostBody (Some (js "not-a-url")) None None))
                (arrival [])).2 = []).
Proof.
  split.
  - pose proof (invalid_request_rejected ok_world (POST (PostBody None None None)) []
                  (or_introl eq_refl)) as (_ & Hlog & Hst & _).
    split; assumption.
  - pose proof (invalid_request_rejected ok_world
                  (POST (PostBody (Some (js "not-a-url")) None None)) []
                  (or_intror eq_refl)) as (_ & Hlog & Hst & _).
    split; assumption.
Defined.

(** C7, as stated, fails on GET: without [url] the body reads
    [URL parameter is required], and neither of its two strings holds the
    text [URL is required]. *)
Lemma get_missing_url_message :
  status (res (serve ok_world (GET ∅) (arrival [])).2) = 400%nat
  /\ body (res (serve ok_world (GET ∅) (arrival [])).2)
     = Some (Json (VObj (object_literal
         [ (js "error", VStr (js "URL parameter is required"));
           (js "example",
            VStr (js "/generate-pdf?url=https://example.com&filename=optional-name.pdf")) ])))
  /\ occurs_in (js "URL is required") (js "URL parameter is required") = false
  /\ occurs_in (js "URL is required")
       (js "/generate-pdf?url=https://example.com&filename=optional-name.pdf") = false.
Proof. repeat split; vm_compute; reflexivity. Qed.

(** ** The headers of a PDF response *)

(** Only the path on which the adapter returned and [setHeader] took the
    name sends a buffer. *)
Lemma pdf_response_inv (w : world) (r : request) (history : list event) (pdf : buffer) :
  body (res (serve w r (arrival history)).2) = Some (Bytes pdf) ->
  exists url,
    request_url r = Some url /\ url <> []
    /\ URL_parses w url = true
    /\ adapter_outcome w r history = Returned pdf
    /\ name_ok (download_name r) = true
    /\ res (serve w r (arrival history)).2
       = pdf_response (download_name r) pdf fresh_response.
Proof.
  destruct (serve_from w r (arrival history)) as (_ & Hres & _).
  rewrite Hres. change (log (arrival history)) with history.
  change (res (arrival history)) with fresh_response.
  unfold serve_response.
  destruct (request_url r) as [[|c url]|] eqn:Hurl; cbn [truthy default from_option id];
    try (cbn [body json_response]; discriminate).
  destruct (URL_parses w (c :: url)) eqn:Hp; [|cbn [body json_response]; discriminate].
  destruct (adapter_outcome w r history) as [pdf'|e];
    [|cbn [body json_response]; discriminate].
  destruct (name_ok (download_name r)); cbn [body json_response pdf_response];
    [|discriminate].
  intros [= ->]. exists (c :: url). repeat split; auto; discriminate.
Qed.

(** C8, as the code has it.  On either route, a response that carries a
    PDF has status 200, [Content-Type: application/pdf], [Content-Length]
    equal to the number of bytes, and a [Content-Disposition] that is
    [attachment; filename=] and the name between double quotes, where the
    name is the caller's
    [filename] when one is supplied and is not empty, and otherwise
    [sanitizeFilename(url)] followed by [.pdf]. *)
Theorem pdf_response_headers (w : world) (r : request) (history : list event)
    (pdf : buffer) :
  body (res (serve w r (arrival history)).2) = Some (Bytes pdf) ->
  exists url,
    request_url r = Some url
    /\ status (res (serve w r (arrival history)).2) = 200%nat
    /\ headers (res (serve w r (arrival history)).2) !! js "Content-Type"
       = Some (HStr (js "application/pdf"))
    /\ headers (res (serve w r (arrival history)).2) !! js "Content-Length"
       = Some (HNum (length pdf))
    /\ headers (res (serve w r (arrival history)).2) !! js "Content-Disposition"
       = Some (HStr (js "attachment; filename=" ++ [dquote]
                     ++ match request_filename r with
                        | Some f => if decide (f = []) then sanitizeFilename url ++ js ".pdf"
                                    else f
                        | None => sanitizeFilename url ++ js ".pdf"
                        end
                     ++ [dquote])).
Proof.
  intros H. apply pdf_response_inv in H as (url & Hurl & _ & _ & _ & _ & Hres).
  exists url. rewrite Hres. unfold pdf_response, download_name. cbn [status headers].
  split; [exact Hurl|]. split; [reflexivity|].
  lookup_keys. repeat split.
  rewrite Hurl. unfold contentDisposition, or_else. cbn [default from_option id].
  destruct (request_filename r) as [[|c f]|]; reflexivity.
Qed.

(** The GET example of the README. *)
Lemma pdf_response_headers_sample :
  exists url,
    request_url (GET (<[js "filename" := js "example.pdf"]> plain_query)) = Some url
    /\ status (res (serve ok_world (GET (<[js "filename" := js "example.pdf"]> plain_query))
                      (arrival [])).2) = 200%nat
    /\ headers (res (serve ok_world (GET (<[js "filename" := js "example.pdf"]> plain_query))
                       (arrival [])).2) !! js "Content-Type"
       = Some (HStr (js "application/pdf"))
    /\ headers (res (serve ok_world (GET (<[js "filename" := js "example.pdf"]> plain_query))
                       (arrival [])).2) !! js "Content-Length"
       = Some (HNum (length sample_pdf))
    /\ headers (res (serve ok_world (GET (<[js "filename" := js "example.pdf"]> plain_query))
                       (arrival [])).2) !! js "Content-Disposition"
       = Some (HStr (js "attachment; filename=" ++ [dquote]
                     ++ match request_filename
                                (GET (<[js "filename" := js "example.pdf"]> plain_query)) with
                        | Some f => if decide (f = []) then sanitizeFilename url ++ js ".pdf"
                                    else f
                        | None => sanitizeFilename url ++ js ".pdf"
                        end
                     ++ [dquote])).
Proof.
  apply (pdf_response_headers ok_world
           (GET (<[js "filename" := js "example.pdf"]> plain_query)) [] sample_pdf).
  vm_compute. reflexivity.
Defined.

(** C8, as stated, fails for a [filename] that is supplied and empty:
    the name in the header is the one derived from the address. *)
Lemma empty_filename_falls_back :
  request_filename (GET (<[js "filename" := []]> plain_query)) = Some []
  /\ body (res (serve ok_world (GET (<[js "filename" := []]> plain_query)) (arrival [])).2)
     = Some (Bytes sample_pdf)
  /\ headers (res (serve ok_world (GET (<[js "filename" := []]> plain_query))
                     (arrival [])).2) !! js "Content-Disposition"
     = Some (HStr (js "attachment; filename=" ++ [dquote] ++ js "example_com.pdf"
                   ++ [dquote])).
Proof. repeat split; vm_compute; reflexivity. Qed.

(** ** Caller-supplied names in [Content-Disposition] *)








(** * Further properties *)

(** ** The adapter, whatever [close] does *)

Lemma render_prefix w b url opts :
  exists n, (n <= 5)%nat
    /\ Launch launchOptions :: (render w b url opts).1
       = take (S (S n)) (render_script b url opts)
    /\ (returned (render w b url opts).2 = true -> n = 5%nat).
Proof.
  unfold render, step, render_script.
  destruct (newPage w b);
    [|exists 0%nat; split; [lia|split; [reflexivity|discriminate]]].
  destruct (setViewport w);
    [|exists 1%nat; split; [lia|split; [reflexivity|discriminate]]].
  destruct (setUserAgent w);
    [|exists 2%nat; split; [lia|split; [reflexivity|discriminate]]].
  destruct (goto w url);
    [|exists 3%nat; split; [lia|split; [reflexivity|discriminate]]].
  destruct (waitForTimeout w);
    [|exists 4%nat; split; [lia|split; [reflexivity|discriminate]]].
  exists 5%nat. split; [lia|]. split; reflexivity.
Qed.

Lemma render_returned w b url opts buf :
  (render w b url opts).2 = Returned buf ->
  pdf w url opts = Returned buf /\ (render w b url opts).1 = drop 1 (render_script b url opts).
Proof.
  unfold render, step, render_script.
  destruct (newPage w b); [|discriminate].
  destruct (setViewport w); [|discriminate].
  destruct (setUserAgent w); [|discriminate].
  destruct (goto w url); [|discriminate].
  destruct (waitForTimeout w); [|discriminate].
  simpl. auto.
Qed.

(** X1.  One run of the adapter makes the calls of the source in their
    order and stops at the first that raises: when the launch raised the
    launch is the only call; otherwise the calls are the first [n] of
    launch, new page, viewport 1920x1080, user agent, navigation to the
    given address (network idle, 30000 ms), the 2000 ms wait and the
    export, with [2 <= n <= 7], followed by one or two calls of [close] on
    the launched session and nothing else.  No call is made twice, and a
    run that returns a buffer has made all seven. *)
Theorem generatePDF_call_order (w : world) (url : jsstring) (options : option jsobject)
    (s : state) :
  match launch w launchOptions with
  | Thrown _ =>
      new_events (generatePDF w url options) s = [Launch launchOptions]
  | Returned b =>
      exists n k : nat,
        (2 <= n <= 7)%nat /\ (1 <= k <= 2)%nat
        /\ new_events (generatePDF w url options) s
           = take n (render_script b url (pdfOptions (default ∅ options)))
             ++ repeat (Close b) k
        /\ (returned (generatePDF w url options s).1 = true -> n = 7%nat)
  end.
Proof.
  rewrite generatePDF_events.
  destruct (launch w launchOptions) as [b|e] eqn:Hl; [|reflexivity].
  cbv zeta.
  destruct (render_prefix w b url (pdfOptions (default ∅ options))) as (n & Hn & Hpre & Hall).
  exists (S (S n)). eexists. split; [lia|]. split; [|split].
  2: { rewrite <- Hpre. simpl. reflexivity. }
  - destruct (_ && _); lia.
  - intros Hret. f_equal. f_equal. apply Hall.
    rewrite generatePDF_run, Hl in Hret. cbv zeta in Hret.
    destruct (render w b url _).2; [reflexivity|].
    destruct (close w _); discriminate.
Qed.

(** X2.  The number of times one run calls [close]: never when the launch
    raised; otherwise once, except that it is twice exactly when the
    export returned and the first [close] raised.  Every one of these
    calls is on the session that the launch returned. *)
Theorem generatePDF_close_count (w : world) (url : jsstring) (options : option jsobject)
    (s : state) :
  List.filter is_close (new_events (generatePDF w url options) s)
  = match launch w launchOptions with
    | Thrown _ => []
    | Returned b =>
        if returned (render_outcome w url (pdfOptions (default ∅ options)))
           && negb (returned (close w (close_attempts (log s))))
        then [Close b; Close b]
        else [Close b]
    end.
Proof.
  rewrite generatePDF_events. unfold render_outcome.
  destruct (launch w launchOptions) as [b|e]; [|reflexivity].
  cbv zeta. simpl. rewrite List.filter_app, render_no_close. simpl.
  destruct (_ && _); reflexivity.
Qed.

(** X3.  The adapter returns a buffer exactly when launch, set-up,
    navigation, wait and export all returned, the export gave that
    buffer, and the [close] that follows returned: a buffer that was
    exported is not returned when closing the session raises. *)
Theorem generatePDF_returns_iff (w : world) (url : jsstring) (options : option jsobject)
    (s : state) (buf : buffer) :
  (generatePDF w url options s).1 = Returned buf
  <-> render_outcome w url (pdfOptions (default ∅ options)) = Returned buf
      /\ close w (close_attempts (log s)) = Returned tt.
Proof.
  rewrite generatePDF_run. unfold render_outcome. cbv zeta.
  destruct (launch w launchOptions) as [b|e].
  - destruct (render w b url _).2 as [pdf|e];
      destruct (close w (close_attempts (log s))) as [[]|e1]; simpl.
    + split; [intros [= ->]; auto | intros [[= ->] _]; reflexivity].
    + split; [destruct (close w _); discriminate | intros [_ H]; discriminate].
    + split; [discriminate | intros [H _]; discriminate].
    + split; [discriminate | intros [H _]; discriminate].
  - simpl. split; [discriminate | intros [H _]; discriminate].
Qed.

(** X4.  When a call before [close] raised and the [close] of the
    [catch] block raises as well, the adapter raises the error of
    [close]: the error of the call that failed first is lost. *)
Theorem generatePDF_close_error_masks (w : world) (url : jsstring)
    (options : option jsobject) (s : state) (b : session) (e e' : error) :
  launch w launchOptions = Returned b ->
  render_outcome w url (pdfOptions (default ∅ options)) = Thrown e ->
  close w (close_attempts (log s)) = Thrown e' ->
  (generatePDF w url options s).1 = Thrown e'.
Proof.
  intros Hl Hr Hc. rewrite generatePDF_run. unfold render_outcome in Hr.
  rewrite Hl in *. cbv zeta. rewrite Hr, Hc. reflexivity.
Qed.

(** Navigation times out, closing fails: the caller sees the error of
    [close]. *)
Lemma generatePDF_close_error_masks_sample :
  (generatePDF timeout_close_fails_world (js "https://example.com") None initial_state).1
  = Thrown (Error (js "Protocol error: Connection closed.")).
Proof.
  apply (generatePDF_close_error_masks timeout_close_fails_world
           (js "https://example.com") None initial_state 1%nat
           (Error (js "Navigation timeout of 30000 ms exceeded"))
           (Error (js "Protocol error: Connection closed."))); reflexivity.
Defined.

(** ** The application run to its end *)

Lemma cors_run req s :
  cors req s =
  (Returned Next, {| log := log s; browser := browser s; res := after_cors (res s) |}).
Proof.
  unfold cors, bind. rewrite setHeader_run.
  change (header_value_ok (HStr (js "*"))) with true. cbv iota.
  rewrite setHeader_run.
  change (header_value_ok (HStr (js "Origin, X-Requested-With, Content-Type, Accept")))
    with true. cbv iota.
  rewrite setHeader_run.
  change (header_value_ok (HStr (js "GET, POST, PUT, DELETE, OPTIONS"))) with true.
  reflexivity.
Qed.

(** The walk of the stack: some layer of the application always answers. *)
Lemma handle_run w req s :
  handle (app_stack w) None req s =
  match req_parse_error req with
  | Some e => internal_error w e req s
  | None =>
      let s' := {| log := log s; browser := browser s; res := after_cors (res s) |} in
      match req_method req, req_path req with
      | Get, Root | Head, Root => root_info req s'
      | Get, Health | Head, Health => health w req s'
      | Post, GeneratePdf => post_generate_pdf w (req_body req) s'
      | Get, GeneratePdf | Head, GeneratePdf => get_generate_pdf w (req_query req) s'
      | _, _ =>
          (Returned tt,
           {| log := log s; browser := browser s;
              res := json_response 404 not_found_body (after_cors (res s)) |})
      end
  end.
Proof.
  unfold app_stack, handle, body_parsers.
  destruct (req_parse_error req) as [e|]; [reflexivity|].
  unfold bind at 1. cbn [ret]. unfold bind at 1. rewrite cors_run.
  destruct (req_method req), (req_path req); reflexivity.
Qed.

Lemma app_from w req history :
  (app w req (arrival history)).1 = Returned tt
  /\ res (app w req (arrival history)).2 = app_response w req history
  /\ log (app w req (arrival history)).2
     = history ++
       match req_parse_error req with
       | Some e => [ConsoleError (js "Unhandled error:") (message e)]
       | None =>
           if reaches_pdf_route req then serve_calls w (as_request req) history else []
       end.
Proof.
  unfold app, bind. rewrite handle_run.
  unfold app_response, layer_response, reaches_pdf_route.
  destruct (req_parse_error req) as [e|]; [simpl; auto|].
  cbv zeta.
  pose proof (serve_from w (GET (req_query req))
                {| log := history; browser := None;
                   res := after_cors fresh_response |}) as (G1 & G2 & G3).
  pose proof (serve_from w (POST (req_body req))
                {| log := history; browser := None;
                   res := after_cors fresh_response |}) as (P1 & P2 & P3).
  cbn [serve log res] in *.
  destruct (req_method req) eqn:Hm, (req_path req) eqn:Hp;
    unfold as_request; rewrite ?Hm;
    try (cbn [arrival log res browser]; simpl; rewrite ?app_nil_r; auto; fail).
  - destruct (get_generate_pdf w (req_query req) _) as [o s2]. cbn [fst snd] in *.
    subst o. cbn [on_response fst snd res log]. rewrite G2, G3. auto.
  - destruct (get_generate_pdf w (req_query req) _) as [o s2]. cbn [fst snd] in *.
    subst o. cbn [on_response fst snd res log]. rewrite G2, G3. auto.
  - destruct (post_generate_pdf w (req_body req) _) as [o s2]. cbn [fst snd] in *.
    subst o. cbn [on_response fst snd res log]. rewrite P2, P3. auto.
Qed.

(** ** The application *)

Lemma json_after_cors code v :
  json_response code v (after_cors fresh_response)
  = {| status := code;
       headers := <[js "Content-Type" := HStr (js "application/json; charset=utf-8")]>
                    cors_headers;
       body := Some (Json v) |}.
Proof. reflexivity. Qed.

Lemma json_fresh code v :
  json_response code v fresh_response
  = {| status := code;
       headers := <[js "Content-Type" := HStr (js "application/json; charset=utf-8")]> ∅;
       body := Some (Json v) |}.
Proof. reflexivity. Qed.

(** The answer of the [catch] block after [setHeader] raised: the
    content type is the one that was set for the PDF. *)
Lemma json_after_type code v (r : response) :
  json_response code v (with_pdf_type r)
  = {| status := code;
       headers := <[js "Content-Type" := HStr (js "application/pdf; charset=utf-8")]>
                    (<[js "Content-Type" := HStr (js "application/pdf")]> (headers r));
       body := Some (Json v) |}.
Proof.
  unfold json_response, with_pdf_type. cbn [headers status body].
  rewrite lookup_insert_eq. reflexivity.
Qed.

Lemma cors_key k v :
  cors_headers !! k = Some v ->
  k <> js "Content-Type" /\ k <> js "Content-Disposition" /\ k <> js "Content-Length".
Proof.
  intros H. repeat split; intros ->; vm_compute in H; discriminate.
Qed.

(** The cases of [serve_response]. *)
Ltac serve_cases w r history :=
  unfold serve_response;
  destruct (truthy (request_url r));
    [destruct (URL_parses w (default [] (request_url r)));
      [destruct (adapter_outcome w r history);
        [destruct (name_ok (download_name r))|]|]|].

(** The response of the application is the response of the routes with
    the CORS headers beneath. *)
Lemma serve_response_cors w r history :
  let a := serve_response w r history (after_cors fresh_response) in
  let p := serve_response w r history fresh_response in
  status a = status p /\ body a = body p
  /\ forall k, headers a !! k
               = match headers p !! k with
                 | Some v => Some v
                 | None => cors_headers !! k
                 end.
Proof.
  serve_cases w r history;
    rewrite ?json_after_cors, ?json_fresh, ?json_after_type; cbv zeta;
    unfold pdf_response; cbn [status body headers];
    change (headers (after_cors fresh_response)) with cors_headers;
    change (headers fresh_response) with (∅ : gmap jsstring hvalue);
    (split; [reflexivity|]); (split; [reflexivity|]); intros k;
    rewrite !lookup_insert; repeat case_decide; try reflexivity;
    rewrite lookup_empty; reflexivity.
Qed.



(** X6.  When the body parsers raised nothing, the response carries the
    three CORS headers as the middleware set them, whichever layer
    answers: a route, the 404 handler, or the [catch] block of a failed
    render. *)
Theorem cors_on_every_response (w : world) (req : http_request) (history : list event)
    (k : jsstring) (v : hvalue) :
  req_parse_error req = None ->
  cors_headers !! k = Some v ->
  headers (res (app w req (arrival history)).2) !! k = Some v.
Proof.
  intros Hparse Hk. destruct (cors_key k v Hk) as (Hct & Hcd & Hcl).
  destruct (app_from w req history) as (_ & Hres & _). rewrite Hres.
  unfold app_response, layer_response. cbn [headers]. rewrite Hparse.
  destruct (req_method req), (req_path req);
    try serve_cases w (as_request req) history;
    rewrite ?json_after_cors, ?json_after_type; unfold pdf_response; cbn [headers];
    change (headers (after_cors fresh_response)) with cors_headers;
    rewrite ?lookup_insert_ne by congruence; exact Hk.
Qed.

(** A request with an unknown method still gets the headers. *)
Lemma cors_on_every_response_preflight :
  status (res (app ok_world preflight_request (arrival [])).2) = 404%nat
  /\ headers (res (app ok_world preflight_request (arrival [])).2)
       !! js "Access-Control-Allow-Origin" = Some (HStr (js "*")).
Proof.
  split; [vm_compute; reflexivity|].
  apply (cors_on_every_response ok_world preflight_request []); vm_compute; reflexivity.
Defined.

(** X7.  When a body parser hands on an error, the error handler answers
    whatever the method and the path: status 500, the body
    [Internal server error] with the timestamp and without the text of
    the error (nothing for a HEAD), a JSON content type, and none of the
    CORS headers, since the CORS middleware has not run; one line goes to
    the console and no route runs. *)
Theorem parse_failure_internal_error (w : world) (req : http_request)
    (history : list event) (e : error) :
  req_parse_error req = Some e ->
  status (res (app w req (arrival history)).2) = 500%nat
  /\ body (res (app w req (arrival history)).2)
     = sent_body req (Some (Json (VObj (object_literal
         [ (js "error", VStr (js "Internal server error"));
           (js "timestamp", VStr (now w)) ]))))
  /\ headers (res (app w req (arrival history)).2) !! js "Content-Type"
     = Some (HStr (js "application/json; charset=utf-8"))
  /\ (forall k v, cors_headers !! k = Some v ->
        headers (res (app w req (arrival history)).2) !! k = None)
  /\ log (app w req (arrival history)).2
     = history ++ [ConsoleError (js "Unhandled error:") (message e)].
Proof.
  intros Hparse. destruct (app_from w req history) as (_ & Hres & Hlog).
  rewrite Hres, Hlog. unfold app_response, layer_response. rewrite Hparse.
  rewrite json_fresh. cbn [status body headers].
  repeat split.
  intros k v Hk. destruct (cors_key k v Hk) as (Hct & _).
  rewrite lookup_insert_ne by congruence. apply lookup_empty.
Qed.

Lemma parse_failure_internal_error_sample :
  status (res (app ok_world broken_json_request (arrival [])).2) = 500%nat
  /\ headers (res (app ok_world broken_json_request (arrival [])).2)
       !! js "Access-Control-Allow-Origin" = None.
Proof.
  destruct (parse_failure_internal_error ok_world broken_json_request []
              (Error (js "Unexpected token } in JSON at position 17")) eq_refl)
    as (Hs & _ & _ & Hc & _).
  split; [exact Hs|].
  apply (Hc (js "Access-Control-Allow-Origin") (HStr (js "*"))).
  vm_compute. reflexivity.
Defined.

(** X8.  A request that parsed and that no route takes (an unknown path,
    or a known path with a method that its route does not serve: POST,
    PUT, DELETE, PATCH or OPTIONS on [/] and [/health], PUT, DELETE, PATCH
    or OPTIONS on [/generate-pdf]; HEAD is served by the GET routes) is
    answered by the 404 handler: status 404, the body
    [Endpoint not found] (nothing for a HEAD), and nothing is logged or
    called. *)
Theorem unrouted_not_found (w : world) (req : http_request) (history : list event) :
  req_parse_error req = None ->
  routed req = false ->
  status (res (app w req (arrival history)).2) = 404%nat
  /\ body (res (app w req (arrival history)).2)
     = sent_body req
         (Some (Json (VObj (object_literal [ (js "error", VStr (js "Endpoint not found")) ]))))
  /\ log (app w req (arrival history)).2 = history.
Proof.
  intros Hparse Hrouted. destruct (app_from w req history) as (_ & Hres & Hlog).
  rewrite Hres, Hlog. unfold app_response, layer_response, reaches_pdf_route.
  rewrite Hparse. unfold routed in Hrouted.
  destruct (req_method req), (req_path req); try discriminate;
    rewrite ?app_nil_r; repeat split; reflexivity.
Qed.

Lemma unrouted_not_found_post_health :
  status (res (app ok_world (HttpRequest Post Health ∅ empty_body None) (arrival [])).2)
  = 404%nat
  /\ body (res (app ok_world (HttpRequest Post Health ∅ empty_body None) (arrival [])).2)
     = sent_body (HttpRequest Post Health ∅ empty_body None)
         (Some (Json (VObj (object_literal [ (js "error", VStr (js "Endpoint not found")) ]))))
  /\ log (app ok_world (HttpRequest Post Health ∅ empty_body None) (arrival [])).2 = [].
Proof.
  apply (unrouted_not_found ok_world (HttpRequest Post Health ∅ empty_body None) []);
    reflexivity.
Defined.

Lemma serve_calls_engine w r history :
  existsb is_engine_call (serve_calls w r history) = renders w r.
Proof.
  unfold serve_calls, renders.
  destruct (truthy (request_url r) && URL_parses w _); [|reflexivity].
  cbv zeta. rewrite generatePDF_events.
  destruct (launch w launchOptions); reflexivity.
Qed.

(** X9.  The calls into the browser engine come from the
    [/generate-pdf] handlers alone: a request makes one exactly when it
    parsed, is a GET, a HEAD or a POST for [/generate-pdf], and its [url]
    is there, not empty and accepted by the URL parser.  A HEAD costs the
    whole render, as a GET does; the health check never touches the
    engine. *)
Theorem engine_called_iff (w : world) (req : http_request) (history : list event) :
  existsb is_engine_call (new_events (app w req) (arrival history))
  = reaches_pdf_route req && renders w (as_request req).
Proof.
  unfold new_events. destruct (app_from w req history) as (_ & _ & Hlog).
  rewrite Hlog. change (log (arrival history)) with history.
  rewrite drop_app_length.
  destruct (req_parse_error req) eqn:Hp.
  - unfold reaches_pdf_route. rewrite Hp. reflexivity.
  - destruct (reaches_pdf_route req); [|reflexivity].
    apply serve_calls_engine.
Qed.



(** X11.  On the [/generate-pdf] routes the application answers as the
    route handler alone does, with the CORS headers added: same outcome,
    same log, same status and body, and each header is the handler's
    where the handler sets it and the CORS middleware's otherwise. *)
Theorem app_generate_pdf_is_serve (w : world) (req : http_request)
    (history : list event) :
  to_generate_pdf req = true ->
  (app w req (arrival history)).1 = (serve w (as_request req) (arrival history)).1
  /\ log (app w req (arrival history)).2
     = log (serve w (as_request req) (arrival history)).2
  /\ status (res (app w req (arrival history)).2)
     = status (res (serve w (as_request req) (arrival history)).2)
  /\ body (res (app w req (arrival history)).2)
     = body (res (serve w (as_request req) (arrival history)).2)
  /\ forall k,
       headers (res (app w req (arrival history)).2) !! k
       = match headers (res (serve w (as_request req) (arrival history)).2) !! k with
         | Some v => Some v
         | None => cors_headers !! k
         end.
Proof.
  intros Hto. destruct (app_from w req history) as (Hout & Hres & Hlog).
  destruct (serve_from w (as_request req) (arrival history)) as (Hout' & Hres' & Hlog').
  rewrite Hout, Hout', Hres, Hres', Hlog, Hlog'. split; [reflexivity|].
  change (log (arrival history)) with history.
  change (res (arrival history)) with fresh_response.
  assert (Hcase : req_parse_error req = None
                  /\ reaches_pdf_route req = true
                  /\ sent_body req = (fun b => b)
                  /\ layer_response w req history
                     = serve_response w (as_request req) history
                         (after_cors fresh_response)).
  { unfold layer_response, to_generate_pdf, reaches_pdf_route, sent_body in *.
    destruct (req_parse_error req); [discriminate|].
    destruct (req_method req), (req_path req); try discriminate; auto. }
  destruct Hcase as (Hnone & Hreach & Hsent & Hlayer).
  rewrite Hnone, Hreach. split; [reflexivity|].
  unfold app_response. rewrite Hsent, Hlayer. cbn [status body headers].
  apply serve_response_cors.
Qed.

Lemma app_generate_pdf_is_serve_sample :
  status (res (app ok_world get_pdf_request (arrival [])).2)
  = status (res (serve ok_world (GET plain_query) (arrival [])).2)
  /\ body (res (app ok_world get_pdf_request (arrival [])).2)
     = body (res (serve ok_world (GET plain_query) (arrival [])).2).
Proof.
  destruct (app_generate_pdf_is_serve ok_world get_pdf_request [] eq_refl)
    as (_ & _ & Hs & Hb & _).
  split; assumption.
Defined.

(** X12.  The two routes are interchangeable when the POST body carries
    no options: a POST and a GET with the same [url] (there and not
    empty) and the same [filename] do the same from any state, in calls
    and in response. *)
Theorem post_without_options_is_get (w : world) (b : post_body)
    (q : gmap jsstring jsstring) (s : state) :
  q !! js "url" = body_url b ->
  q !! js "filename" = body_filename b ->
  default ∅ (body_options b) = ∅ ->
  truthy (body_url b) = true ->
  serve w (POST b) s = serve w (GET q) s.
Proof.
  intros Hurl Hfile Hopt Htruthy. rewrite !serve_run. simpl.
  rewrite Hurl, Hfile, Hopt, Htruthy. reflexivity.
Qed.

Lemma post_without_options_is_get_sample :
  serve timeout_world (POST (PostBody (Some (js "https://example.com")) None None))
    initial_state
  = serve timeout_world (GET plain_query) initial_state.
Proof.
  apply post_without_options_is_get; reflexivity.
Defined.

Lemma generatePDF_returned_inv w url options s buf :
  (generatePDF w url options s).1 = Returned buf ->
  exists b,
    launch w launchOptions = Returned b
    /\ (render w b url (pdfOptions (default ∅ options))).2 = Returned buf
    /\ List.filter is_close (new_events (generatePDF w url options) s) = [Close b].
Proof.
  rewrite generatePDF_events, generatePDF_run. cbv zeta.
  destruct (launch w launchOptions) as [b|e]; [|discriminate].
  destruct (render w b url _).2 as [pdf|e] eqn:Hr.
  - destruct (close w (close_attempts (log s))) as [[]|e1].
    + intros [= ->]. exists b. split; [reflexivity|]. split; [exact Hr|].
      cbn [returned negb andb List.filter is_close].
      rewrite List.filter_app, render_no_close. reflexivity.
    + destruct (close w _); discriminate.
  - destruct (close w _); discriminate.
Qed.

(** X13.  A PDF is sent whole or not at all: when the response carries
    a buffer, the address was there and parsed, the buffer is what the
    export gave for that address and the merged options, and the session
    that rendered it has been closed by a single [close] that returned. *)
Theorem pdf_body_is_the_export (w : world) (r : request) (history : list event)
    (buf : buffer) :
  body (res (serve w r (arrival history)).2) = Some (Bytes buf) ->
  exists (url : jsstring) (b : session),
    request_url r = Some url
    /\ URL_parses w url = true
    /\ launch w launchOptions = Returned b
    /\ pdf w url (pdfOptions (request_options r)) = Returned buf
    /\ List.filter is_close (new_events (serve w r) (arrival history)) = [Close b].
Proof.
  intros Hbody. unfold new_events.
  destruct (serve_from w r (arrival history)) as (_ & _ & Hlog). rewrite Hlog.
  change (log (arrival history)) with history. rewrite drop_app_length.
  apply pdf_response_inv in Hbody as (url & Hurl & Hne & Hparse & Hgen & Hname & _).
  unfold serve_calls. rewrite Hgen, Hname.
  unfold adapter_outcome in Hgen. rewrite Hurl in *.
  assert (truthy (Some url) = true) as -> by (destruct url; [congruence|reflexivity]).
  cbn [default from_option id andb] in *. rewrite Hparse. cbv zeta.
  apply generatePDF_returned_inv in Hgen as (b & Hl & Hr & Hn).
  cbn [default from_option id] in Hr.
  apply render_returned in Hr as [Hpdf _].
  exists url, b. repeat split; auto.
  rewrite app_nil_r. cbn [List.filter is_close]. exact Hn.
Qed.

Lemma pdf_body_is_the_export_sample :
  exists (url : jsstring) (b : session),
    request_url (GET plain_query) = Some url
    /\ URL_parses ok_world url = true
    /\ launch ok_world launchOptions = Returned b
    /\ pdf ok_world url (pdfOptions (request_options (GET plain_query)))
       = Returned sample_pdf
    /\ List.filter is_close (new_events (serve ok_world (GET plain_query)) (arrival []))
       = [Close b].
Proof.
  apply (pdf_body_is_the_export ok_world (GET plain_query) [] sample_pdf).
  vm_compute. reflexivity.
Defined.

(** X14.  The [filename] of a request never reaches the engine: two
    requests on the same route with the same [url] and options make the
    same engine calls.  When moreover [setHeader] takes the name of both
    or of neither, they also log the same and get the same status, the
    same body and, [Content-Disposition] apart, the same headers.  (A
    name that [setHeader] refuses turns a 200 with the PDF into a 500:
    see C10.) *)
Theorem filename_only_names_the_download (w : world) (r1 r2 : request)
    (history : list event) :
  same_route r1 r2 = true ->
  request_url r1 = request_url r2 ->
  request_options r1 = request_options r2 ->
  List.filter is_engine_call (log (serve w r1 (arrival history)).2)
  = List.filter is_engine_call (log (serve w r2 (arrival history)).2)
  /\ (name_ok (download_name r1) = name_ok (download_name r2) ->
      log (serve w r1 (arrival history)).2 = log (serve w r2 (arrival history)).2
      /\ status (res (serve w r1 (arrival history)).2)
         = status (res (serve w r2 (arrival history)).2)
      /\ body (res (serve w r1 (arrival history)).2)
         = body (res (serve w r2 (arrival history)).2)
      /\ forall k, k <> js "Content-Disposition" ->
           headers (res (serve w r1 (arrival history)).2) !! k
           = headers (res (serve w r2 (arrival history)).2) !! k).
Proof.
  intros Hroute Hurl Hopt.
  destruct (serve_from w r1 (arrival history)) as (_ & Hres1 & Hlog1).
  destruct (serve_from w r2 (arrival history)) as (_ & Hres2 & Hlog2).
  rewrite Hres1, Hres2, Hlog1, Hlog2.
  unfold serve_calls, serve_response, adapter_outcome.
  rewrite Hurl, Hopt. split.
  - rewrite !List.filter_app. f_equal.
    destruct (truthy (request_url r2) && URL_parses w _); [|reflexivity].
    cbv zeta. cbn [List.filter is_engine_call]. rewrite !List.filter_app. f_equal.
    destruct (generatePDF w _ _ _).1; [|reflexivity].
    destruct (name_ok (download_name r1)), (name_ok (download_name r2)); reflexivity.
  - intros Hname. rewrite Hname. split; [reflexivity|].
    destruct (truthy (request_url r2)).
    + destruct (URL_parses w _); [|repeat split; reflexivity].
      destruct (generatePDF w _ _ _).1; [|repeat split; reflexivity].
      destruct (name_ok (download_name r2)); [|repeat split; reflexivity].
      unfold pdf_response; cbn [status body headers]. repeat split.
      intros k Hk. rewrite !lookup_insert. repeat case_decide; congruence.
    + destruct r1, r2; try discriminate; repeat split; reflexivity.
Qed.

Lemma filename_only_names_the_download_sample :
  List.filter is_engine_call
    (log (serve ok_world (GET (<[js "filename" := js "a.pdf"]> plain_query))
            (arrival [])).2)
  = List.filter is_engine_call
      (log (serve ok_world (GET (<[js "filename" := line_feed_name]> plain_query))
              (arrival [])).2).
Proof.
  apply (filename_only_names_the_download ok_world
           (GET (<[js "filename" := js "a.pdf"]> plain_query))
           (GET (<[js "filename" := line_feed_name]> plain_query)) []);
    vm_compute; reflexivity.
Defined.

(** X19.  A HEAD request is served as the GET request with the same
    path, query and body is: the same layers run, a HEAD for
    [/generate-pdf] renders in full, and log, status and headers are
    those of the GET; only the body is not sent. *)
Theorem head_is_get_without_body (w : world) (req : http_request)
    (history : list event) :
  req_method req = Head ->
  let get := HttpRequest Get (req_path req) (req_query req) (req_body req)
               (req_parse_error req) in
  (app w req (arrival history)).1 = (app w get (arrival history)).1
  /\ log (app w req (arrival history)).2 = log (app w get (arrival history)).2
  /\ status (res (app w req (arrival history)).2)
     = status (res (app w get (arrival history)).2)
  /\ headers (res (app w req (arrival history)).2)
     = headers (res (app w get (arrival history)).2)
  /\ body (res (app w req (arrival history)).2) = None.
Proof.
  intros Hm get.
  destruct (app_from w req history) as (Hout & Hres & Hlog).
  destruct (app_from w get history) as (Hout' & Hres' & Hlog').
  rewrite Hout, Hout', Hres, Hres', Hlog, Hlog'.
  unfold app_response, layer_response, reaches_pdf_route, sent_body, as_request.
  subst get. cbn [req_method req_path req_query req_body req_parse_error status headers body].
  rewrite Hm.
  destruct (req_parse_error req); [repeat split; reflexivity|].
  destruct (req_path req); repeat split; reflexivity.
Qed.

(** A HEAD for a page launches the browser and exports, as the GET
    does. *)
Lemma head_is_get_without_body_sample :
  log (app ok_world head_pdf_request (arrival [])).2
  = log (app ok_world get_pdf_request (arrival [])).2
  /\ body (res (app ok_world head_pdf_request (arrival [])).2) = None.
Proof.
  destruct (head_is_get_without_body ok_world head_pdf_request [] eq_refl)
    as (_ & Hl & _ & _ & Hb).
  split; assumption.
Defined.

(** ** More on [sanitizeFilename] *)

Lemma replace_first_here (re : jsstring -> option nat) (by_ s : jsstring) (n : nat) :
  re s = Some n -> replace_first re by_ s = by_ ++ drop n s.
Proof. intros H. destruct s; cbn [replace_first]; rewrite H; reflexivity. Qed.

Lemma replace_first_leading (sch s : jsstring) (n : nat) :
  scheme_re (sch ++ s) = Some n -> length sch = n ->
  replace_first scheme_re [] (sch ++ s) = s.
Proof.
  intros Hre Hlen. rewrite (replace_first_here _ _ _ n Hre), <- Hlen, drop_app_length.
  reflexivity.
Qed.

(** X15.  The scheme does not show in the name: an address gives the
    same name with [http://] as with [https://] in front, namely the
    lowercased, underscored and truncated rest; only this one leading
    scheme is taken out, a second one in the rest stays. *)
Theorem sanitizeFilename_scheme_blind (s : jsstring) :
  sanitizeFilename (js "http://" ++ s) = sanitizeFilename (js "https://" ++ s)
  /\ sanitizeFilename (js "https://" ++ s)
     = truncate50 (toLowerCase (outside_alnum_to_underscore s)).
Proof.
  assert (H8 : replace_first scheme_re [] (js "https://" ++ s) = s).
  { apply (replace_first_leading _ _ 8); [|reflexivity].
    rewrite scheme_re_at. unfold scheme_at. rewrite drop_0.
    assert (starts_with (js "https://") (js "https://" ++ s) = true) as ->
      by (apply starts_with_prefix; eauto).
    reflexivity. }
  assert (H7 : replace_first scheme_re [] (js "http://" ++ s) = s).
  { apply (replace_first_leading _ _ 7); [|reflexivity].
    rewrite scheme_re_at. unfold scheme_at. rewrite drop_0.
    assert (starts_with (js "https://") (js "http://" ++ s) = false) as ->
      by (vm_compute; reflexivity).
    assert (starts_with (js "http://") (js "http://" ++ s) = true) as ->
      by (apply starts_with_prefix; eauto).
    reflexivity. }
  unfold sanitizeFilename, substring0, truncate50.
  rewrite H7, H8, replace_class_negb. split; reflexivity.
Qed.

Lemma removed_length_le (s : jsstring) :
  (removed_length s <= length s)%nat
  /\ length (remove_first_scheme s) = (length s - removed_length s)%nat.
Proof.
  unfold removed_length. pose proof (remove_first_scheme_split s) as H.
  destruct (first_scheme s) as [[i n]|].
  - destruct H as (sch & _ & Hlen & Hs & Hrem).
    rewrite Hrem. apply (f_equal length) in Hs. rewrite !length_app, Hlen in Hs.
    rewrite length_app. lia.
  - rewrite H. lia.
Qed.

(** X16.  The length of the name is the length of the input without the
    scheme that was taken out (7 or 8 code units, or none), cut at 50;
    so the name is empty exactly for the empty input and for an input
    that is a scheme and nothing more. *)
Theorem sanitizeFilename_length (s : jsstring) :
  (removed_length s <= length s)%nat
  /\ length (sanitizeFilename s) = (50 `min` (length s - removed_length s))%nat
  /\ (sanitizeFilename s = [] <-> length s = removed_length s).
Proof.
  destruct (removed_length_le s) as [Hle Hrem].
  assert (Hlen : length (sanitizeFilename s) = (50 `min` (length s - removed_length s))%nat).
  { unfold sanitizeFilename, substring0, toLowerCase, replace_class.
    rewrite length_take, !length_map, replace_first_scheme, Hrem. reflexivity. }
  split; [exact Hle|]. split; [exact Hlen|].
  split.
  - intros H. rewrite H in Hlen. cbn [length] in Hlen. lia.
  - intros H. apply length_zero_iff_nil. rewrite Hlen. lia.
Qed.

(** X17.  The strings that [sanitizeFilename] leaves as they are, are
    the strings over [a-z0-9_] of at most 50 code units, and no others. *)
Theorem sanitizeFilename_fixed_points (s : jsstring) :
  sanitizeFilename s = s <-> matches_out_re s = true /\ (length s <= 50)%nat.
Proof.
  split.
  - intros H. rewrite <- H. split; [apply sanitize_out | apply sanitize_length].
  - intros [Hout Hlen]. apply sanitize_fixed; assumption.
Qed.

(** ** More on the options of the export *)

(** X18.  The object handed to the export has the caller's keys and the
    six keys of the literal, and no others: a caller can replace the
    value of a default but cannot take a default away. *)
Theorem pdfOptions_keys (options : jsobject) (k : jsstring) :
  (is_Some (pdfOptions options !! k) <-> is_Some (options !! k) \/ In k default_keys)
  /\ (is_Some (pdfDefaults !! k) <-> In k default_keys).
Proof.
  assert (Hdef : is_Some (pdfDefaults !! k) <-> In k default_keys).
  { unfold pdfDefaults, object_literal, default_keys. cbn [foldl fst snd In].
    rewrite !lookup_insert_is_Some, lookup_empty, is_Some_alt.
    split.
    - intros H. repeat (destruct H as [H| [_ H]]; [auto 10|]). contradiction.
    - intros H.
      repeat (destruct H as [H|H];
              [destruct (decide (js "footerTemplate" = k));
               destruct (decide (js "headerTemplate" = k));
               destruct (decide (js "displayHeaderFooter" = k));
               destruct (decide (js "margin" = k));
               destruct (decide (js "printBackground" = k));
               destruct (decide (js "format" = k)); tauto|]).
      contradiction. }
  split; [|exact Hdef].
  unfold pdfOptions. rewrite lookup_spread, <- Hdef.
  destruct (options !! k) as [v|].
  - split; eauto.
  - split; [auto|]. intros [[v Hv]|H]; [discriminate|exact H].
Qed.
